(** * ventriloquism: polling assertions over a puppeteer wrapper

    A shallow embedding of [src/index.ts].  The library decorates the
    browser, page and element objects of puppeteer with matchers and with
    polling assertions ([shouldEqual], [shouldMatch], [shouldHaveCount]).

    What the code computes itself is translated function by function.  What
    it delegates is kept abstract:
    - the browser is a [World]: the document at every instant, the time a
      driver call takes and the lateness of timers;
    - JavaScript's [RegExp] is an interface, [RegExpEngine];
    - an [async] function is a computation [M A] over the mutable [State]
      (clock, trace of driver calls, heap of option objects) that settles
      as [Resolved] or [Rejected];
    - the three [while] loops take fuel, and the theorems give a fuel that
      is enough.

    Numbers are integers: times and timeouts are whole milliseconds, counts
    are whole.  [Date.now()] reads the clock without moving it; the clock
    moves while a driver call is awaited and while [sleep] sleeps.  A driver
    call is answered from the document as it is when the call is made.  An
    options object lives in a store and is known by its reference, since
    the wrappers share the object the caller passed to [launch]. *)

From Stdlib Require Import ZArith String List Lia.
From stdpp Require Import gmap strings list pretty.

Local Open Scope string_scope.
Local Open Scope Z_scope.

(** ** JavaScript values *)

(** An [Error] object, as far as the code reads or writes it.  The [stack]
    that [Error.captureStackTrace] attaches is not modelled. *)
Record JsError := { name : string; message : string }.

(** [new UnmatchError(message)]: the class sets [name] to "UnmatchError". *)
Definition UnmatchError (msg : string) : JsError :=
  {| name := "UnmatchError"; message := msg |}.

(** [new Error(message)]. *)
Definition Error (msg : string) : JsError :=
  {| name := "Error"; message := msg |}.

(** What the runtime throws when a property of [undefined] or [null] is read. *)
Definition TypeError (msg : string) : JsError :=
  {| name := "TypeError"; message := msg |}.

(** What [RegExp(pattern)] throws on a malformed pattern. *)
Definition SyntaxError (msg : string) : JsError :=
  {| name := "SyntaxError"; message := msg |}.

(** The values the code throws: [throw error] throws the variable [error],
    which holds an [Error] or is still [undefined]. *)
Inductive JsValue :=
  | JsUndefined
  | JsObject (e : JsError).

(** [string | null]: what [getAttribute] and the attribute readers return. *)
Abbreviation JsString := (option string).

(** [`${v}`]: a template literal renders [null] as the text "null". *)
Definition template (v : JsString) : string :=
  match v with
  | Some s => s
  | None => "null"
  end.

(** [`${n}`] for an integral number. *)
Definition template_number (n : Z) : string := pretty n.

(** [sub] occurs in [s]. *)
Definition contains (sub s : string) : Prop :=
  exists pre post, s = pre +:+ sub +:+ post.

(** ** The regular expressions of the runtime *)

(** [RegExp] is the runtime's, not the library's.  [regexp_new] is the call
    [RegExp(pattern)], which throws a [SyntaxError] on a malformed pattern;
    [regexp_test] is [r.test(s)] for a pattern without the [g] and [y] flags
    (no [lastIndex] state); [regexp_toString] is what [`${r}`] prints. *)
Class RegExpEngine := {
  RegExp : Type;
  regexp_new : string -> RegExp + JsError;
  regexp_test : RegExp -> string -> bool;
  regexp_toString : RegExp -> string;
}.

(** ** The browser *)

(** An element of the page: its [textContent] and its attributes. *)
Record Element := {
  textContent : string;
  attributes : gmap string string;
}.

(** Where a selector is resolved from: a page or an element. *)
Inductive NodeRef :=
  | PageRoot (page : nat)
  | ElementNode (node : nat).

(** The browser at one instant: the elements that JS handles can still
    reach, and the answer of [querySelectorAll] under every root. *)
Record Dom := {
  nodes : gmap nat Element;
  select : NodeRef -> string -> list nat;
}.

(** The environment the library runs in.  [dom t] is the browser at time
    [t] (milliseconds); a driver call issued at [t] takes
    [driver_delay t] ms; a timer set at [t] fires [timer_lag t] ms late. *)
Record World := {
  dom : Z -> Dom;
  driver_delay : Z -> nat;
  timer_lag : Z -> nat;
}.

(** The calls the library makes on puppeteer's own objects. *)
Inductive DriverCall :=
  | CallLaunch
  | CallNewPage
  | CallQuery (root : NodeRef) (selector : string)
  | CallQueryAll (root : NodeRef) (selector : string)
  | CallEvaluateText (node : nat)
  | CallEvaluateAttribute (node : nat) (attribute : string).

(** puppeteer's browser object. *)
Inductive OrgBrowser := orgBrowser.

(** ** Options *)

(** [interface LaunchOptions { matchingTimeout: number }], as an object at
    run time: the property holds an integral number of milliseconds or is
    [undefined] ([None]), which the type forbids and JavaScript allows. *)
Record LaunchOptions := { matchingTimeout : option Z }.

(** A reference to an options object.  Every wrapper closes over the
    reference it was given, never over a copy. *)
Abbreviation OptRef := nat.

(** ** Mutable state *)

Record State := {
  now : Z;
  calls : list DriverCall;
  pages : nat;
  store : list LaunchOptions;
}.

(** ** Asynchronous computations *)

Inductive Outcome (A : Type) :=
  | Resolved (a : A)
  | Rejected (v : JsValue).
Arguments Resolved {A} a.
Arguments Rejected {A} v.

Definition M (A : Type) : Type := State -> Outcome A * State.

Definition ret {A} (a : A) : M A := fun s => (Resolved a, s).

Definition throw {A} (v : JsValue) : M A := fun s => (Rejected v, s).

Definition bind {A B} (m : M A) (k : A -> M B) : M B := fun s =>
  match m s with
  | (Resolved a, s') => k a s'
  | (Rejected v, s') => (Rejected v, s')
  end.

Notation "x <- m ;; k" := (bind m (fun x => k))
  (at level 100, m at next level, right associativity).
Notation "m ;;; k" := (bind m (fun _ => k))
  (at level 100, right associativity).

(** A synchronous result used where an [async] function expects one. *)
Definition lift {A} (o : Outcome A) : M A := fun s => (o, s).

(** A loop that ran out of fuel has no outcome. *)
Definition Loop (A : Type) : Type := State -> option (Outcome A * State).

(** [throw error] for the loop variable [let error: Error | undefined]. *)
Definition thrown (error : option JsError) : JsValue :=
  match error with
  | Some e => JsObject e
  | None => JsUndefined
  end.

(** ** Time *)

Definition advance (ms : Z) (s : State) : State :=
  {| now := now s + ms; calls := calls s; pages := pages s; store := store s |}.

(** [Date.now()]. *)
Definition Date_now : M Z := fun s => (Resolved (now s), s).

(** The double-quote character of the messages. *)
Definition dquote : string := String (Ascii.ascii_of_nat 34) EmptyString.

(** ** Wrapped objects *)

(** The object [wrapElementHandle] returns: the native handle it copies and
    relinks, and the [options] its methods close over. *)
Record ElementHandle := {
  native : nat;
  element_options : OptRef;
}.

(** The object [wrapPage] returns. *)
Record Page := {
  page_id : nat;
  page_options : OptRef;
}.

(** The object [wrapBrowser] returns. *)
Record Browser := {
  browser_options : OptRef;
}.

(** [$$lazy] is defined on wrapped pages and on wrapped elements, so the
    [parent] of a collection is one or the other. *)
Inductive Parent :=
  | ParentPage (p : Page)
  | ParentElement (e : ElementHandle).

(** [class ElementHandles]: three fields, none of them a query result. *)
Record ElementHandles := {
  selector : string;
  options : OptRef;
  parent : Parent;
}.

Section Library.

Context (world : World) {engine : RegExpEngine}.

(** [expected: string | RegExp]. *)
Inductive Expected :=
  | ExpString (s : string)
  | ExpRegExp (r : RegExp).

(** [interface Matcher]: the promise holds an [Error] or [undefined]. *)
Definition Matcher : Type := ElementHandle -> Expected -> M (option JsError).

(** [sleep(ms)]: a promise that [setTimeout] resolves after [ms]
    milliseconds, or later (a delay below 1 counts as 1). *)
Definition sleep (ms : Z) : M unit := fun s =>
  (Resolved tt, advance (Z.max 1 ms + Z.of_nat (timer_lag world (now s))) s).

(** ** Puppeteer's side *)

(** A call is written to the trace when it is issued. *)
Definition issue (c : DriverCall) (s : State) : State :=
  {| now := now s; calls := calls s ++ [c]; pages := pages s; store := store s |}.

(** An awaited driver call: it is answered from the browser as it is when
    the call is issued, and the caller resumes [driver_delay] later. *)
Definition driver {A} (c : DriverCall) (answer : Dom -> Outcome A) : M A := fun s =>
  (answer (dom world (now s)),
   advance (Z.of_nat (driver_delay world (now s))) (issue c s)).

(** The error of a call on a handle the browser has dropped. *)
Definition disposed : JsError := Error "JSHandle is disposed!".

(** A page root always answers; an element answers while the browser
    holds it. *)
Definition reachable (d : Dom) (root : NodeRef) : bool :=
  match root with
  | PageRoot _ => true
  | ElementNode n => bool_decide (is_Some (nodes d !! n))
  end.

(** [handle.evaluate(fn)]. *)
Definition native_evaluate {A} (c : DriverCall) (node : nat) (fn : Element -> A) : M A :=
  driver c (fun d =>
    match nodes d !! node with
    | Some it => Resolved (fn it)
    | None => Rejected (JsObject disposed)
    end).

(** The native [$]: the first match, or [null]. *)
Definition native_dollar (root : NodeRef) (sel : string) : M (option nat) :=
  driver (CallQuery root sel) (fun d =>
    if reachable d root then Resolved (head (select d root sel))
    else Rejected (JsObject disposed)).

(** The native [$$]: every match, in document order. *)
Definition native_dollars (root : NodeRef) (sel : string) : M (list nat) :=
  driver (CallQueryAll root sel) (fun d =>
    if reachable d root then Resolved (select d root sel)
    else Rejected (JsObject disposed)).

(** The native [browser.newPage()]. *)
Definition native_newPage : M nat := fun s =>
  (Resolved (pages s),
   advance (Z.of_nat (driver_delay world (now s)))
     (issue CallNewPage
        {| now := now s; calls := calls s; pages := S (pages s); store := store s |})).

(** puppeteer's [launch()]. *)
Definition orgLaunch : M OrgBrowser := driver CallLaunch (fun _ => Resolved orgBrowser).

(** ** wrapElementHandle *)

(** The last statement of [wrapElementHandle] reads
    [elementHandle.__proto__]: on [null] or [undefined] ([None]) it throws. *)
Definition wrapElementHandle (elementHandle : option nat) (options : OptRef)
  : Outcome ElementHandle :=
  match elementHandle with
  | Some h => Resolved {| native := h; element_options := options |}
  | None =>
      Rejected (JsObject (TypeError "Cannot read property '__proto__' of undefined"))
  end.

(** [array.map(fn)] for a callback that may throw. *)
Fixpoint array_map {A B} (fn : A -> Outcome B) (l : list A) : Outcome (list B) :=
  match l with
  | [] => Resolved []
  | x :: l' =>
      match fn x with
      | Rejected v => Rejected v
      | Resolved y =>
          match array_map fn l' with
          | Rejected v => Rejected v
          | Resolved ys => Resolved (y :: ys)
          end
      end
  end.

(** [extended.$(selector)]. *)
Definition ElementHandle_dollar (extended : ElementHandle) (sel : string) : M ElementHandle :=
  h <- native_dollar (ElementNode (native extended)) sel ;;
  lift (wrapElementHandle h (element_options extended)).

(** [extended.$$(selector)]. *)
Definition ElementHandle_dollars (extended : ElementHandle) (sel : string)
  : M (list ElementHandle) :=
  hs <- native_dollars (ElementNode (native extended)) sel ;;
  lift (array_map (fun it => wrapElementHandle (Some it) (element_options extended)) hs).

(** [extended.$$lazy(selector)]. *)
Definition ElementHandle_dollars_lazy (extended : ElementHandle) (sel : string)
  : M ElementHandles :=
  ret {| selector := sel; options := element_options extended;
         parent := ParentElement extended |}.

(** [extended.attr(attribute)]: [getAttribute] gives [null] for an
    attribute the element does not have. *)
Definition ElementHandle_attr (extended : ElementHandle) (attribute : string) : M JsString :=
  native_evaluate (CallEvaluateAttribute (native extended) attribute)
    (native extended) (fun it => attributes it !! attribute).

(** [extended.text()]. *)
Definition ElementHandle_text (extended : ElementHandle) : M JsString :=
  native_evaluate (CallEvaluateText (native extended))
    (native extended) (fun it => Some (textContent it)).

(** [extended.class()]. *)
Definition ElementHandle_class (extended : ElementHandle) : M JsString :=
  ElementHandle_attr extended "class".

(** [extended.style()]. *)
Definition ElementHandle_style (extended : ElementHandle) : M JsString :=
  ElementHandle_attr extended "style".

(** [extended.value()]. *)
Definition ElementHandle_value (extended : ElementHandle) : M JsString :=
  ElementHandle_attr extended "value".

(** ** Matchers *)

(** [expected !== actual] for a string [expected]. *)
Definition strict_ne (expected : string) (actual : JsString) : bool :=
  negb (bool_decide (actual = Some expected)).

Definition Text : Matcher := fun element expected =>
  text <- ElementHandle_text element ;;
  match expected with
  | ExpString expected =>
      if strict_ne expected text then
        ret (Some (UnmatchError
          ("Failed to match with element text. Expected text is " +:+ dquote +:+
           expected +:+ dquote +:+ ", but was " +:+ dquote +:+ template text +:+
           dquote +:+ " appeared.")))
      else ret None
  | ExpRegExp expected =>
      if negb (regexp_test expected (template text)) then
        ret (Some (UnmatchError
          ("Failed to match with element text. Expected matcher is " +:+ dquote +:+
           regexp_toString expected +:+ dquote +:+ ", but was " +:+ dquote +:+
           template text +:+ dquote +:+ " appeared.")))
      else ret None
  end.

Definition Value : Matcher := fun element expected =>
  value <- ElementHandle_value element ;;
  match expected with
  | ExpString expected =>
      if strict_ne expected value then
        ret (Some (UnmatchError
          ("Failed to match with element value. Expected value is " +:+ dquote +:+
           expected +:+ dquote +:+ ", but was " +:+ dquote +:+ template value +:+
           dquote +:+ " appeared.")))
      else ret None
  | ExpRegExp expected =>
      if negb (regexp_test expected (template value)) then
        ret (Some (UnmatchError
          ("Failed to match with element value. Expected matcher is " +:+ dquote +:+
           regexp_toString expected +:+ dquote +:+ ", but was " +:+ dquote +:+
           template value +:+ dquote +:+ " appeared.")))
      else ret None
  end.

(** The matcher the source exports as [Class]. *)
Definition Class_ : Matcher := fun element expected =>
  clazz <- ElementHandle_class element ;;
  match expected with
  | ExpString expected =>
      if strict_ne expected clazz then
        ret (Some (UnmatchError
          ("Failed to match with element class. Expected class is " +:+ dquote +:+
           expected +:+ dquote +:+ ", but was " +:+ dquote +:+ template clazz +:+
           dquote +:+ " appeared.")))
      else ret None
  | ExpRegExp expected =>
      if negb (regexp_test expected (template clazz)) then
        ret (Some (UnmatchError
          ("Failed to match with element class. Expected matcher is " +:+ dquote +:+
           regexp_toString expected +:+ dquote +:+ ", but was " +:+ dquote +:+
           template clazz +:+ dquote +:+ " appeared.")))
      else ret None
  end.

Definition Style : Matcher := fun element expected =>
  style <- ElementHandle_style element ;;
  match expected with
  | ExpString expected =>
      if strict_ne expected style then
        ret (Some (UnmatchError
          ("Failed to match with element style. Expected style is " +:+ dquote +:+
           expected +:+ dquote +:+ ", but was " +:+ dquote +:+ template style +:+
           dquote +:+ " appeared.")))
      else ret None
  | ExpRegExp expected =>
      if negb (regexp_test expected (template style)) then
        ret (Some (UnmatchError
          ("Failed to match with element style. Expected matcher is " +:+ dquote +:+
           regexp_toString expected +:+ dquote +:+ ", but was " +:+ dquote +:+
           template style +:+ dquote +:+ " appeared.")))
      else ret None
  end.

(** [createMatcher(attribute, matchFn)]: the function it returns takes
    [element] only.  [matchFn] is a predicate that returns; what it is
    given is [null] when the element lacks the attribute. *)
Definition createMatcher (attribute : string) (matchFn : JsString -> bool) : Matcher :=
  fun element _ =>
    attr <- ElementHandle_attr element attribute ;;
    if negb (matchFn attr) then
      ret (Some (UnmatchError
        ("Failed to match with element attribute " +:+ dquote +:+ attribute +:+
         dquote +:+ ". Actual value was " +:+ dquote +:+ template attr +:+
         dquote +:+ ".")))
    else ret None.

(** ** The polling loop *)

(** [options.matchingTimeout].  A wrapper that was handed no options object
    (a reference the store does not hold) throws here. *)
Definition read_matchingTimeout (options : OptRef) : M (option Z) := fun s =>
  match store s !! options with
  | Some o => (Resolved (matchingTimeout o), s)
  | None =>
      (Rejected (JsObject
         (TypeError "Cannot read property 'matchingTimeout' of undefined")), s)
  end.

(** [start + timeout > now].  With [timeout] undefined the sum is [NaN],
    and [NaN > now] is false. *)
Definition before_deadline (start : Z) (timeout : option Z) (t : Z) : bool :=
  match timeout with
  | Some timeout => start + timeout >? t
  | None => false
  end.

(** [start + options.matchingTimeout > Date.now()]. *)
Definition loop_condition (options : OptRef) (start : Z) : M bool :=
  timeout <- read_matchingTimeout options ;;
  t <- Date_now ;;
  ret (before_deadline start timeout t).

(** The loop that [shouldEqual], [shouldMatch] and [shouldHaveCount] each
    write out:
    [while (start + options.matchingTimeout > Date.now()) {
       error = check; if (!error) return; await sleep(100); }
     throw error;]
    [error] is the loop variable, [check] the right-hand side of the
    assignment. *)
Fixpoint poll (fuel : nat) (options : OptRef) (start : Z)
    (check : M (option JsError)) (error : option JsError) : Loop unit := fun s =>
  match fuel with
  | O => None
  | S fuel' =>
      match loop_condition options start s with
      | (Rejected v, s1) => Some (Rejected v, s1)
      | (Resolved false, s1) => Some (Rejected (thrown error), s1)
      | (Resolved true, s1) =>
          match check s1 with
          | (Rejected v, s2) => Some (Rejected v, s2)
          | (Resolved None, s2) => Some (Resolved tt, s2)
          | (Resolved (Some e), s2) =>
              match sleep 100 s2 with
              | (Resolved _, s3) => poll fuel' options start check (Some e) s3
              | (Rejected v, s3) => Some (Rejected v, s3)
              end
          end
      end
  end.

(** The statements before a loop. *)
Definition and_then {A B} (m : M A) (k : A -> Loop B) : Loop B := fun s =>
  match m s with
  | (Resolved a, s') => k a s'
  | (Rejected v, s') => Some (Rejected v, s')
  end.

(** [extended.shouldEqual(matcher, expected)]. *)
Definition ElementHandle_shouldEqual (fuel : nat) (extended : ElementHandle)
    (matcher : Matcher) (expected : string) : Loop unit :=
  and_then Date_now (fun start =>
    poll fuel (element_options extended) start
      (matcher extended (ExpString expected)) None).

(** [typeof expected === "string" ? RegExp(expected) : expected]. *)
Definition to_regexp (expected : Expected) : Outcome RegExp :=
  match expected with
  | ExpString pattern =>
      match regexp_new pattern with
      | inl r => Resolved r
      | inr e => Rejected (JsObject e)
      end
  | ExpRegExp r => Resolved r
  end.

(** [extended.shouldMatch(matcher, expected)]. *)
Definition ElementHandle_shouldMatch (fuel : nat) (extended : ElementHandle)
    (matcher : Matcher) (expected : Expected) : Loop unit :=
  and_then Date_now (fun start =>
  and_then (lift (to_regexp expected)) (fun regexp =>
    poll fuel (element_options extended) start
      (matcher extended (ExpRegExp regexp)) None)).

(** ** wrapPage *)

Definition wrapPage (page : nat) (options : OptRef) : Page :=
  {| page_id := page; page_options := options |}.

(** [newPage.$(selector)]. *)
Definition Page_dollar (newPage : Page) (sel : string) : M ElementHandle :=
  h <- native_dollar (PageRoot (page_id newPage)) sel ;;
  lift (wrapElementHandle h (page_options newPage)).

(** [newPage.$$(selector)]. *)
Definition Page_dollars (newPage : Page) (sel : string) : M (list ElementHandle) :=
  hs <- native_dollars (PageRoot (page_id newPage)) sel ;;
  lift (array_map (fun it => wrapElementHandle (Some it) (page_options newPage)) hs).

(** [newPage.$$lazy(selector)]. *)
Definition Page_dollars_lazy (newPage : Page) (sel : string) : M ElementHandles :=
  ret {| selector := sel; options := page_options newPage;
         parent := ParentPage newPage |}.

(** ** ElementHandles *)

(** [this.parent.$$(selector)]. *)
Definition parent_dollars (p : Parent) (sel : string) : M (list ElementHandle) :=
  match p with
  | ParentPage newPage => Page_dollars newPage sel
  | ParentElement extended => ElementHandle_dollars extended sel
  end.

(** A call whose promise is not awaited: the call is made, the caller does
    not wait for it and does not see how it settles. *)
Definition unawaited {A} (m : M A) : M unit := fun s =>
  let '(_, s') := m s in
  (Resolved tt,
   {| now := now s; calls := calls s'; pages := pages s'; store := store s' |}).

(** [get(index)]:
    [wrapElementHandle(await this.parent.$$(this.selector)[index], this.options)].
    The index applies to the promise that [$$] returns, not to the awaited
    array; a promise has no numeric property, so what is awaited and handed
    to [wrapElementHandle] is [undefined]. *)
Definition ElementHandles_get (this : ElementHandles) (index : Z) : M ElementHandle :=
  unawaited (parent_dollars (parent this) (selector this)) ;;;
  lift (wrapElementHandle None (options this)).

(** The right-hand side of [error = ...] in [shouldHaveCount]. *)
Definition count_check (this : ElementHandles) (count : Z) : M (option JsError) :=
  items <- parent_dollars (parent this) (selector this) ;;
  let size := Z.of_nat (length items) in
  ret (if negb (Z.eqb size count) then
         Some (Error ("Failed to match element counts. Expected count is " +:+
                      template_number count +:+ " but was " +:+ template_number size))
       else None).

(** [shouldHaveCount(count)]. *)
Definition ElementHandles_shouldHaveCount (fuel : nat) (this : ElementHandles)
    (count : Z) : Loop unit :=
  and_then Date_now (fun start =>
    poll fuel (options this) start (count_check this count) None).

(** [Promise.all(promises)], with the callbacks scheduled one after the
    other in array order; the results keep that order. *)
Fixpoint Promise_all {U} (promises : list (M U)) : M (list U) :=
  match promises with
  | [] => ret []
  | p :: ps =>
      x <- p ;;
      xs <- Promise_all ps ;;
      ret (x :: xs)
  end.

(** [map(cb)]. *)
Definition ElementHandles_map {U} (this : ElementHandles) (cb : ElementHandle -> M U)
  : M (list U) :=
  items <- parent_dollars (parent this) (selector this) ;;
  Promise_all (List.map cb items).

(** The [for] loop of [forEach], from index [i] on.  [items[i]] is a
    wrapped element already; wrapping it again copies it and keeps its
    native handle. *)
Fixpoint forEach_from (options : OptRef) (cb : ElementHandle -> nat -> M unit)
    (items : list ElementHandle) (i : nat) : M unit :=
  match items with
  | [] => ret tt
  | item :: rest =>
      el <- lift (wrapElementHandle (Some (native item)) options) ;;
      cb el i ;;;
      forEach_from options cb rest (S i)
  end.

(** [forEach(cb)]. *)
Definition ElementHandles_forEach (this : ElementHandles)
    (cb : ElementHandle -> nat -> M unit) : M unit :=
  items <- parent_dollars (parent this) (selector this) ;;
  forEach_from (options this) cb items 0.

(** ** wrapBrowser and launch *)

Definition wrapBrowser (browser : OrgBrowser) (options : OptRef) : Browser :=
  {| browser_options := options |}.

(** [newBrowser.newPage()]. *)
Definition Browser_newPage (newBrowser : Browser) : M Page :=
  page <- native_newPage ;;
  ret (wrapPage page (browser_options newBrowser)).

(** The object literal [{ matchingTimeout: 10000 }]: a new object. *)
Definition new_object (o : LaunchOptions) : M OptRef := fun s =>
  (Resolved (length (store s)),
   {| now := now s; calls := calls s; pages := pages s; store := store s ++ [o] |}).

(** [options || { matchingTimeout: 10000 }]: an object is truthy whatever
    it holds; only a missing argument takes the right-hand side. *)
Definition or_default (options : option OptRef) : M OptRef :=
  match options with
  | Some o => ret o
  | None => new_object {| matchingTimeout := Some 10000 |}
  end.

(** [launch(options?)]. *)
Definition launch (options : option OptRef) : M Browser :=
  browser <- orgLaunch ;;
  options' <- or_default options ;;
  ret (wrapBrowser browser options').

End Library.

(** ** Read-outs used in the statements *)

(** The four matchers the library exports. *)
Inductive BuiltIn := IsText | IsValue | IsClass | IsStyle.

Section ReadOuts.

Context (world : World) {engine : RegExpEngine}.

Definition builtin_matcher (k : BuiltIn) : Matcher :=
  match k with
  | IsText => Text world
  | IsValue => Value world
  | IsClass => Class_ world
  | IsStyle => Style world
  end.

(** The one read each of them makes on the element. *)
Definition builtin_read (k : BuiltIn) : ElementHandle -> M JsString :=
  match k with
  | IsText => ElementHandle_text world
  | IsValue => ElementHandle_value world
  | IsClass => ElementHandle_class world
  | IsStyle => ElementHandle_style world
  end.

(** The matchers the library provides: the four it exports and the ones
    [createMatcher] builds. *)
Inductive LibraryMatcher :=
  | Exported (k : BuiltIn)
  | Created (attribute : string) (matchFn : JsString -> bool).

Definition library_matcher (m : LibraryMatcher) : Matcher :=
  match m with
  | Exported k => builtin_matcher k
  | Created attribute matchFn => createMatcher world attribute matchFn
  end.

Definition library_read (m : LibraryMatcher) : ElementHandle -> M JsString :=
  match m with
  | Exported k => builtin_read k
  | Created attribute _ => fun element => ElementHandle_attr world element attribute
  end.

(** The root a collection queries. *)
Definition parent_root (p : Parent) : NodeRef :=
  match p with
  | ParentPage newPage => PageRoot (page_id newPage)
  | ParentElement extended => ElementNode (native extended)
  end.

(** The options the elements of [parent.$$] carry. *)
Definition parent_options (p : Parent) : OptRef :=
  match p with
  | ParentPage newPage => page_options newPage
  | ParentElement extended => element_options extended
  end.

(** The elements that match a collection's selector at the time of [s]. *)
Definition live_set (this : ElementHandles) (s : State) : list nat :=
  select (dom world (now s)) (parent_root (parent this)) (selector this).

(** A computation that lets the clock go forward only and leaves the
    option objects alone. *)
Definition steady {A} (m : M A) : Prop :=
  forall s r s', m s = (r, s') -> now s <= now s' /\ store s' = store s.

(** [matchingTimeout] is zero, negative or undefined. *)
Definition no_time (timeout : option Z) : bool :=
  match timeout with
  | Some t => t <=? 0
  | None => true
  end.

(** What holds of the value a promise resolves with; a rejected promise
    resolves with none. *)
Definition resolved_with {A} (P : A -> Prop) (r : Outcome A * State) : Prop :=
  match fst r with
  | Resolved a => P a
  | Rejected _ => True
  end.

(** The option objects after a call are the option objects before it. *)
Definition same_store {A} (s : State) (r : Outcome A * State) : Prop :=
  store (snd r) = store s.

Definition loop_same_store {A} (s : State) (r : option (Outcome A * State)) : Prop :=
  match r with
  | Some r => same_store s r
  | None => True
  end.

(** A run of iterations of the polling loop that all failed: each began
    with the loop condition true, stored the error of its check and slept.
    The list holds the stored errors, oldest first. *)
Inductive failing_run (options : OptRef) (start : Z) (check : M (option JsError))
  : State -> list JsError -> State -> Prop :=
  | failing_nil s : failing_run options start check s [] s
  | failing_cons s e s1 s2 errs s' :
      loop_condition options start s = (Resolved true, s) ->
      check s = (Resolved (Some e), s1) ->
      sleep world 100 s1 = (Resolved tt, s2) ->
      failing_run options start check s2 errs s' ->
      failing_run options start check s (e :: errs) s'.

(** The two assertions of a wrapped element. *)
Inductive Assertion :=
  | ShouldEqual (expected : string)
  | ShouldMatch (expected : Expected).

(** What an assertion hands to the matcher at every check, if it gets as
    far as the loop: [shouldEqual] the string, [shouldMatch] the pattern. *)
Definition assertion_argument (a : Assertion) : Outcome Expected :=
  match a with
  | ShouldEqual expected => Resolved (ExpString expected)
  | ShouldMatch expected =>
      match to_regexp expected with
      | Resolved regexp => Resolved (ExpRegExp regexp)
      | Rejected v => Rejected v
      end
  end.

Definition run_assertion (fuel : nat) (extended : ElementHandle) (matcher : Matcher)
    (a : Assertion) : Loop unit :=
  match a with
  | ShouldEqual expected => ElementHandle_shouldEqual world fuel extended matcher expected
  | ShouldMatch expected => ElementHandle_shouldMatch world fuel extended matcher expected
  end.

(** The loop of a library in which the configuration is read no more than
    once per assertion: the timeout is a value fixed before the loop.  The
    source has no such loop; this one is here to be compared with [poll]. *)
Fixpoint poll_read_once (fuel : nat) (timeout : option Z) (start : Z)
    (check : M (option JsError)) (error : option JsError) : Loop unit := fun s =>
  match fuel with
  | O => None
  | S fuel' =>
      if before_deadline start timeout (now s) then
        match check s with
        | (Rejected v, s2) => Some (Rejected v, s2)
        | (Resolved None, s2) => Some (Resolved tt, s2)
        | (Resolved (Some e), s2) =>
            match sleep world 100 s2 with
            | (Resolved _, s3) => poll_read_once fuel' timeout start check (Some e) s3
            | (Rejected v, s3) => Some (Rejected v, s3)
            end
        end
      else Some (Rejected (thrown error), s)
  end.

Definition shouldEqual_read_once (fuel : nat) (extended : ElementHandle)
    (matcher : Matcher) (expected : string) : Loop unit :=
  and_then Date_now (fun start =>
  and_then (read_matchingTimeout (element_options extended)) (fun timeout =>
    poll_read_once fuel timeout start (matcher extended (ExpString expected)) None)).

End ReadOuts.

(** ** What a check reads, and the call it makes *)

Section Reads.

Context (world : World).

(** What each exported matcher reads of an element: [textContent], or
    what [getAttribute] gives for "value", "class" or "style". *)
Definition builtin_observes (k : BuiltIn) (it : Element) : JsString :=
  match k with
  | IsText => Some (textContent it)
  | IsValue => attributes it !! "value"
  | IsClass => attributes it !! "class"
  | IsStyle => attributes it !! "style"
  end.

(** The driver call that read is. *)
Definition builtin_call (k : BuiltIn) (element : ElementHandle) : DriverCall :=
  match k with
  | IsText => CallEvaluateText (native element)
  | IsValue => CallEvaluateAttribute (native element) "value"
  | IsClass => CallEvaluateAttribute (native element) "class"
  | IsStyle => CallEvaluateAttribute (native element) "style"
  end.

Definition library_observes (m : LibraryMatcher) (it : Element) : JsString :=
  match m with
  | Exported k => builtin_observes k it
  | Created attribute _ => attributes it !! attribute
  end.

Definition library_call (m : LibraryMatcher) (element : ElementHandle) : DriverCall :=
  match m with
  | Exported k => builtin_call k element
  | Created attribute _ => CallEvaluateAttribute (native element) attribute
  end.

(** The state when an awaited driver call, made in [s], has been answered. *)
Definition after_call (c : DriverCall) (s : State) : State :=
  advance (Z.of_nat (driver_delay world (now s))) (issue c s).

(** What a matcher prints of [expected] in its message. *)
Definition printed {engine : RegExpEngine} (expected : Expected) : string :=
  match expected with
  | ExpString s => s
  | ExpRegExp r => regexp_toString r
  end.

(** Whether the value read satisfies [expected]: a string by [===], a
    pattern by [test] on the value as a template prints it. *)
Definition satisfies {engine : RegExpEngine} (expected : Expected) (actual : JsString) : bool :=
  match expected with
  | ExpString s => bool_decide (actual = Some s)
  | ExpRegExp r => regexp_test r (template actual)
  end.

(** Whether the element satisfies what a library matcher asks of it. *)
Definition library_satisfied {engine : RegExpEngine} (m : LibraryMatcher)
    (expected : Expected) (it : Element) : bool :=
  match m with
  | Exported k => satisfies expected (builtin_observes k it)
  | Created attribute matchFn => matchFn (attributes it !! attribute)
  end.

(** A check that takes no longer than [D] ms. *)
Definition timely {A} (D : Z) (m : M A) : Prop :=
  forall s r s', m s = (r, s') -> now s' <= now s + D.

End Reads.

(** ** A small engine and a small page, for the examples *)

Module Demo.

(** The characters with a meaning of their own in a pattern. *)
Definition metacharacters : list Ascii.ascii :=
  list_ascii_of_string "\^$.|?*+()[]{}".

Definition is_metachar (c : Ascii.ascii) : bool :=
  existsb (Ascii.eqb c) metacharacters.

Definition has_metachar (p : string) : bool :=
  existsb is_metachar (list_ascii_of_string p).

(** [sub] occurs in [s], decided. *)
Fixpoint occurs (sub s : string) : bool :=
  if String.prefix sub s then true
  else match s with
       | EmptyString => false
       | String _ s' => occurs sub s'
       end.

(** The patterns without metacharacters: such a pattern matches the
    strings it occurs in.  Every other pattern is refused here; JavaScript
    refuses the malformed ones, of which the examples use "(" only. *)
Definition literal_engine : RegExpEngine := {|
  RegExp := string;
  regexp_new p :=
    if has_metachar p
    then inr (SyntaxError ("Invalid regular expression: /" +:+ p +:+ "/"))
    else inl p;
  regexp_test r s := occurs r s;
  regexp_toString r := "/" +:+ r +:+ "/";
|}.

Definition link : Element :=
  {| textContent := "About google";
     attributes := {[ "class" := "gb1"; "style" := "color: blue" ]} |}.

Definition loading : Element :=
  {| textContent := "Loading...";
     attributes := {[ "class" := "gb1"; "style" := "color: blue" ]} |}.

Definition input : Element :=
  {| textContent := EmptyString; attributes := {[ "value" := "foo" ]} |}.

Definition item : Element :=
  {| textContent := "item"; attributes := ∅ |}.

(** One page, number 0.  Element 1 is a link whose text is "Loading..."
    for the first 300 ms; element 2 is an input; the list has five items,
    and eight from 1000 ms on. *)
Definition items_at (t : Z) : list nat :=
  if t <? 1000 then seq 10 5 else seq 10 8.

Definition page_at (t : Z) : Dom :=
  {| nodes :=
       <[1%nat := if t <? 300 then loading else link]>
         (<[2%nat := input]>
            (list_to_map ((fun n => (n, item)) <$> items_at t)));
     select := fun root sel =>
       match root with
       | PageRoot 0 =>
           if String.eqb sel "a" then [1%nat]
           else if String.eqb sel "input" then [2%nat]
           else if String.eqb sel "li" then items_at t
           else []
       | _ => []
       end |}.

(** Driver calls take 5 ms, timers are on time. *)
Definition world : World :=
  {| dom := page_at; driver_delay := fun _ => 5%nat; timer_lag := fun _ => 0%nat |}.


(** The state at time [t] with one page open and one options object, at
    reference 0. *)
Definition state_at (t : Z) (o : LaunchOptions) : State :=
  {| now := t; calls := []; pages := 1; store := [o] |}.

Definition the_page : Page := {| page_id := 0; page_options := 0%nat |}.

Definition the_link : ElementHandle := {| native := 1; element_options := 0%nat |}.

Definition the_input : ElementHandle := {| native := 2; element_options := 0%nat |}.

Definition the_items : ElementHandles :=
  {| selector := "li"; options := 0%nat; parent := ParentPage the_page |}.

(** A matcher of a test that also writes to the options object it can
    reach: [async () => { opts.matchingTimeout = 0; return new Error(..) }]. *)
Definition meddling : @Matcher literal_engine := fun _ _ s =>
  (Resolved (Some (Error "not yet")),
   {| now := now s; calls := calls s; pages := pages s;
      store := <[0%nat := {| matchingTimeout := Some 0 |}]> (store s) |}).

(** A handle on an element the browser does not hold, and a collection
    under it. *)
Definition the_ghost : ElementHandle := {| native := 99; element_options := 0%nat |}.

Definition the_ghost_items : ElementHandles :=
  {| selector := "li"; options := 0%nat; parent := ParentElement the_ghost |}.

(** A collection whose selector matches nothing. *)
Definition no_items : ElementHandles :=
  {| selector := "table"; options := 0%nat; parent := ParentPage the_page |}.

End Demo.

(** * Properties *)

(** ** Strings *)

Lemma append_assoc (a b c : string) : (a +:+ b) +:+ c = a +:+ (b +:+ c).
Proof.
  induction a as [|ch a IH]; [reflexivity|].
  change (String ch ((a +:+ b) +:+ c) = String ch (a +:+ (b +:+ c))).
  now f_equal.
Qed.

Lemma contains_head (sub post : string) : contains sub (sub +:+ post).
Proof. exists EmptyString, post. reflexivity. Qed.

Lemma contains_skip (sub pre s : string) : contains sub s -> contains sub (pre +:+ s).
Proof.
  intros (a & b & ->). exists (pre +:+ a), b. now rewrite append_assoc.
Qed.

Lemma contains_end (sub : string) : contains sub sub.
Proof.
  exists EmptyString, EmptyString.
  change (sub = sub +:+ EmptyString).
  induction sub as [|ch sub IH]; [reflexivity|].
  change (String ch sub = String ch (sub +:+ EmptyString)).
  now f_equal.
Qed.

(** Finds [sub] among the pieces of a message that is written as a chain
    of appends. *)
Ltac find_piece :=
  repeat first [ apply contains_head | apply contains_end | apply contains_skip ].

Section Properties.

Context (world : World) {engine : RegExpEngine}.

(** ** Computations *)

Lemma bind_resolved {A B} (m : M A) (k : A -> M B) s a s' :
  m s = (Resolved a, s') -> bind m k s = k a s'.
Proof. intros H. unfold bind. now rewrite H. Qed.

Lemma bind_rejected {A B} (m : M A) (k : A -> M B) s v s' :
  m s = (Rejected v, s') -> bind m k s = (Rejected v, s').
Proof. intros H. unfold bind. now rewrite H. Qed.

Lemma steady_ret {A} (a : A) : steady (ret a).
Proof. intros s r s' [= <- <-]. split; [lia | reflexivity]. Qed.

Lemma steady_lift {A} (o : Outcome A) : steady (lift o).
Proof. intros s r s' [= <- <-]. split; [lia | reflexivity]. Qed.

Lemma steady_bind {A B} (m : M A) (k : A -> M B) :
  steady m -> (forall a, steady (k a)) -> steady (bind m k).
Proof.
  intros Hm Hk s r s'. unfold bind.
  destruct (m s) as [[a|v] s1] eqn:E; intros H.
  - destruct (Hm _ _ _ E) as [Hn Hs]. destruct (Hk a _ _ _ H) as [Hn' Hs'].
    split; [lia | congruence].
  - injection H as <- <-. exact (Hm _ _ _ E).
Qed.

Lemma steady_driver {A} (c : DriverCall) (answer : Dom -> Outcome A) :
  steady (driver world c answer).
Proof.
  intros s r s' [= <- <-]. simpl. split; [lia | reflexivity].
Qed.


Lemma steady_attr element attribute : steady (ElementHandle_attr world element attribute).
Proof. apply steady_driver. Qed.

Lemma steady_text element : steady (ElementHandle_text world element).
Proof. apply steady_driver. Qed.

Lemma steady_library_read (m : LibraryMatcher) element :
  steady (library_read world m element).
Proof. destruct m as [[]|]; simpl; apply steady_driver. Qed.

(** ** What a matcher returns *)


Ltac split_if :=
  match goal with |- context [if ?b then _ else _] => destruct b eqn:? end.

Lemma steady_library_matcher (m : LibraryMatcher) element expected :
  steady (library_matcher world m element expected).
Proof.
  destruct m as [[]|attribute matchFn]; cbn [library_matcher builtin_matcher];
    unfold Text, Value, Class_, Style, createMatcher;
    (apply steady_bind; [apply steady_driver|]);
    intros actual; destruct expected; try split_if; apply steady_ret.
Qed.

(** ** The parent query *)

Lemma array_map_wrap (options : OptRef) (hs : list nat) :
  array_map (fun it => wrapElementHandle (Some it) options) hs =
  Resolved ((fun it => {| native := it; element_options := options |}) <$> hs).
Proof.
  induction hs as [|h hs IH]; [reflexivity|].
  cbn [array_map]. now rewrite IH.
Qed.

(** [parent.$$(selector)] is one driver query, answered from the document
    as it is when the call is made. *)
Lemma parent_dollars_eq (this : ElementHandles) (s : State) :
  parent_dollars world (parent this) (selector this) s =
  ((if reachable (dom world (now s)) (parent_root (parent this))
    then Resolved ((fun it => {| native := it;
                                 element_options := parent_options (parent this) |})
                     <$> live_set world this s)
    else Rejected (JsObject disposed)),
   advance (Z.of_nat (driver_delay world (now s)))
     (issue (CallQueryAll (parent_root (parent this)) (selector this)) s)).
Proof.
  unfold live_set.
  destruct (parent this) as [newPage|extended];
    cbn [parent_dollars parent_root parent_options];
    unfold Page_dollars, ElementHandle_dollars, bind, native_dollars, driver, lift;
    match goal with |- context [reachable ?d ?r] => destruct (reachable d r) end;
    try reflexivity; now rewrite array_map_wrap.
Qed.

Lemma steady_parent_dollars (this : ElementHandles) :
  steady (parent_dollars world (parent this) (selector this)).
Proof.
  intros s r s' H. rewrite parent_dollars_eq in H. injection H as <- <-.
  simpl. split; [lia | reflexivity].
Qed.

Lemma count_check_eq (this : ElementHandles) (count : Z) (s : State) :
  reachable (dom world (now s)) (parent_root (parent this)) = true ->
  count_check world this count s =
  (Resolved
     (if negb (Z.eqb (Z.of_nat (length (live_set world this s))) count) then
        Some (Error ("Failed to match element counts. Expected count is " +:+
                     template_number count +:+ " but was " +:+
                     template_number (Z.of_nat (length (live_set world this s)))))
      else None),
   advance (Z.of_nat (driver_delay world (now s)))
     (issue (CallQueryAll (parent_root (parent this)) (selector this)) s)).
Proof.
  intros Hr. unfold count_check, bind. rewrite parent_dollars_eq, Hr.
  unfold ret. now rewrite length_fmap.
Qed.

Lemma steady_count_check (this : ElementHandles) (count : Z) :
  steady (count_check world this count).
Proof.
  apply steady_bind; [apply steady_parent_dollars | intros; apply steady_ret].
Qed.

(** ** The loop, step by step *)

Lemma loop_condition_eq (options : OptRef) (start : Z) (s : State) (o : LaunchOptions) :
  store s !! options = Some o ->
  loop_condition options start s =
  (Resolved (before_deadline start (matchingTimeout o) (now s)), s).
Proof.
  intros H. unfold loop_condition, bind, read_matchingTimeout. now rewrite H.
Qed.

Lemma poll_exit fuel options start check error s :
  loop_condition options start s = (Resolved false, s) ->
  poll world (S fuel) options start check error s = Some (Rejected (thrown error), s).
Proof. intros H. cbn [poll]. now rewrite H. Qed.

Lemma poll_pass fuel options start check error s s1 :
  loop_condition options start s = (Resolved true, s) ->
  check s = (Resolved None, s1) ->
  poll world (S fuel) options start check error s = Some (Resolved tt, s1).
Proof. intros H H1. cbn [poll]. now rewrite H, H1. Qed.

Lemma poll_retry fuel options start check error s e s1 s2 :
  loop_condition options start s = (Resolved true, s) ->
  check s = (Resolved (Some e), s1) ->
  sleep world 100 s1 = (Resolved tt, s2) ->
  poll world (S fuel) options start check error s =
  poll world fuel options start check (Some e) s2.
Proof. intros H H1 H2. cbn [poll]. now rewrite H, H1, H2. Qed.

Lemma poll_throw fuel options start check error s v s1 :
  loop_condition options start s = (Resolved true, s) ->
  check s = (Rejected v, s1) ->
  poll world (S fuel) options start check error s = Some (Rejected v, s1).
Proof. intros H H1. cbn [poll]. now rewrite H, H1. Qed.



(** ** The exported matchers on a literal *)


(** ** Matchers do not throw *)


(** ** get *)

Lemma get_issues_query (this : ElementHandles) (index : Z) (s : State) :
  snd (ElementHandles_get world this index s) =
  issue (CallQueryAll (parent_root (parent this)) (selector this)) s.
Proof.
  unfold ElementHandles_get, bind, unawaited. now rewrite parent_dollars_eq.
Qed.

(** C4 (what the code does).  [get(index)] makes the query and then rejects
    with a [TypeError], whatever the index and whatever the query would
    have found: it never resolves with an element, nor with [undefined]. *)
Theorem get_always_rejects (this : ElementHandles) (index : Z) (s : State) :
  ElementHandles_get world this index s =
  (Rejected (JsObject (TypeError "Cannot read property '__proto__' of undefined")),
   issue (CallQueryAll (parent_root (parent this)) (selector this)) s).
Proof.
  unfold ElementHandles_get, bind, unawaited. now rewrite parent_dollars_eq.
Qed.

(** ** Assertions that time out *)

Lemma run_assertion_eq fuel extended matcher a x s :
  assertion_argument a = Resolved x ->
  run_assertion world fuel extended matcher a s =
  poll world fuel (element_options extended) (now s) (matcher extended x) None s.
Proof.
  destruct a as [expected|expected]; cbn [assertion_argument run_assertion].
  - intros [= <-]. reflexivity.
  - unfold ElementHandle_shouldMatch, and_then, Date_now, lift.
    destruct (to_regexp expected) as [regexp|v]; [|discriminate].
    intros [= <-]. reflexivity.
Qed.




(** ** shouldHaveCount *)


(** ** A collection holds no results *)


(** ** No time, no check *)

Lemma no_time_closed (options : OptRef) (s : State) (o : LaunchOptions) :
  store s !! options = Some o ->
  no_time (matchingTimeout o) = true ->
  loop_condition options (now s) s = (Resolved false, s).
Proof.
  intros Ho Hno. rewrite (loop_condition_eq _ _ _ o Ho).
  destruct (matchingTimeout o) as [t|]; cbn [before_deadline no_time] in *;
    [|reflexivity].
  f_equal. f_equal. rewrite Z.gtb_ltb. apply Z.ltb_ge. apply Z.leb_le in Hno. lia.
Qed.

(** C9 (amended).  When [matchingTimeout] is zero, negative or undefined in
    the options object at the time of the call, [shouldEqual],
    [shouldHaveCount] and, for a pattern or a string that [RegExp] accepts,
    [shouldMatch] reject with [undefined] and leave the state as it was:
    no driver call is made and the clock has not moved, whatever the
    matcher, so no check has run. *)
Theorem no_time_no_check (fuel : nat) (extended : ElementHandle) (matcher : Matcher)
    (expected : string) (pattern : Expected) (regexp : RegExp)
    (this : ElementHandles) (count : Z) (s : State) (o o' : LaunchOptions) :
  store s !! element_options extended = Some o ->
  no_time (matchingTimeout o) = true ->
  store s !! options this = Some o' ->
  no_time (matchingTimeout o') = true ->
  to_regexp pattern = Resolved regexp ->
  ElementHandle_shouldEqual world (S fuel) extended matcher expected s =
    Some (Rejected JsUndefined, s) /\
  ElementHandle_shouldMatch world (S fuel) extended matcher pattern s =
    Some (Rejected JsUndefined, s) /\
  ElementHandles_shouldHaveCount world (S fuel) this count s =
    Some (Rejected JsUndefined, s).
Proof.
  intros Ho Hno Ho' Hno' Hre.
  unfold ElementHandle_shouldEqual, ElementHandle_shouldMatch,
    ElementHandles_shouldHaveCount, and_then, Date_now, lift.
  rewrite Hre.
  repeat split; apply poll_exit; eapply no_time_closed; eassumption.
Qed.

(** ** createMatcher *)

(** C10 (amended).  A matcher built by [createMatcher] does not look at
    [expected].  Applied directly, and through [shouldEqual], any two
    expected values give the same outcome; through [shouldMatch] so do any
    two that are patterns or strings that [RegExp] accepts.  The outcome of
    the matcher is the predicate's verdict on the attribute that was read:
    no error if it holds, an [UnmatchError] if not, and the driver's
    rejection if the read was rejected. *)
Theorem createMatcher_ignores_expected (attribute : string) (matchFn : JsString -> bool)
    (element : ElementHandle) (p1 p2 : string) (e1 e2 : Expected) (r1 r2 : RegExp)
    (fuel : nat) (s : State) :
  to_regexp e1 = Resolved r1 ->
  to_regexp e2 = Resolved r2 ->
  createMatcher world attribute matchFn element e1 s =
    createMatcher world attribute matchFn element e2 s /\
  ElementHandle_shouldEqual world fuel element (createMatcher world attribute matchFn) p1 s =
    ElementHandle_shouldEqual world fuel element (createMatcher world attribute matchFn) p2 s /\
  ElementHandle_shouldMatch world fuel element (createMatcher world attribute matchFn) e1 s =
    ElementHandle_shouldMatch world fuel element (createMatcher world attribute matchFn) e2 s /\
  match ElementHandle_attr world element attribute s with
  | (Resolved attr, s') =>
      exists msg,
        createMatcher world attribute matchFn element e1 s =
        (Resolved (if matchFn attr then None else Some (UnmatchError msg)), s')
  | (Rejected v, s') =>
      createMatcher world attribute matchFn element e1 s = (Rejected v, s')
  end.
Proof.
  intros H1 H2.
  split; [reflexivity|]. split; [reflexivity|]. split.
  - unfold ElementHandle_shouldMatch, and_then, Date_now, lift.
    rewrite H1, H2. reflexivity.
  - unfold createMatcher, bind.
    destruct (ElementHandle_attr world element attribute s) as [[attr|v] s'];
      [|reflexivity].
    eexists. destruct (matchFn attr); reflexivity.
Qed.

(** ** launch *)

(** C6 (amended).  [launch] called without options makes a new options
    object whose [matchingTimeout] is 10000, and the browser it resolves
    with holds that object.  [launch] called with an options object
    resolves with a browser that holds that very object, and writes
    nothing to it: what the object lacks stays lacking. *)
Theorem launch_options (s : State) :
  (exists s',
     launch world None s = (Resolved {| browser_options := length (store s) |}, s') /\
     store s' = (store s ++ [{| matchingTimeout := Some 10000 |}])%list /\
     store s' !! length (store s) = Some {| matchingTimeout := Some 10000 |}) /\
  (forall options : OptRef, exists s',
     launch world (Some options) s = (Resolved {| browser_options := options |}, s') /\
     store s' = store s).
Proof.
  split.
  - eexists. split; [reflexivity|]. cbn [store advance issue].
    split; [reflexivity|]. now apply list_lookup_middle.
  - intros options. eexists. split; reflexivity.
Qed.

(** ** Options are handed down and never written *)

Lemma loop_condition_state options start s r s' :
  loop_condition options start s = (r, s') -> s' = s.
Proof.
  unfold loop_condition, bind, read_matchingTimeout.
  destruct (store s !! options); now intros [= _ <-].
Qed.

Lemma poll_same_store fuel options start check error s :
  steady check ->
  loop_same_store s (poll world fuel options start check error s).
Proof.
  intros Hsteady. revert s error.
  induction fuel as [|fuel IH]; intros s error; cbn [poll]; [exact I|].
  destruct (loop_condition options start s) as [[[|]|v] s1] eqn:Hc;
    apply loop_condition_state in Hc; subst s1; try reflexivity.
  destruct (check s) as [[[e|]|v] s2] eqn:Hk;
    destruct (Hsteady _ _ _ Hk) as [_ Hs2]; try exact Hs2.
  cbn [sleep].
  specialize (IH (advance (Z.max 1 100 + Z.of_nat (timer_lag world (now s2))) s2) (Some e)).
  destruct (poll world fuel options start check (Some e) _) as [[r s3]|]; [|exact I].
  unfold loop_same_store, same_store in *. cbn [snd] in *. simpl in IH. congruence.
Qed.

Lemma wrapped_carry (options : OptRef) (hs : list nat) :
  Forall (fun el => element_options el = options)
    ((fun it => {| native := it; element_options := options |}) <$> hs).
Proof. induction hs; constructor; [reflexivity | assumption]. Qed.

Lemma forEach_from_rewraps options cb items i s :
  forEach_from options cb items i s =
  forEach_from options
    (fun el => cb {| native := native el; element_options := options |}) items i s.
Proof.
  revert i s. induction items as [|item items IH]; intros i s; [reflexivity|].
  cbn [forEach_from wrapElementHandle]. unfold bind, lift. cbn [native].
  destruct (cb _ i s) as [[[]|v] s1]; [apply IH | reflexivity].
Qed.

Lemma map_of_wrapped {U} (options : OptRef) (cb : ElementHandle -> M U) (hs : list nat) :
  List.map cb ((fun it => {| native := it; element_options := options |}) <$> hs) =
  List.map (fun el => cb {| native := native el; element_options := options |})
    ((fun it => {| native := it; element_options := options |}) <$> hs).
Proof. induction hs as [|h hs IH]; [reflexivity|]. cbn. now rewrite <- IH. Qed.

(** C8 (amended).  Every wrapped object holds the options object of the
    object it was made from: the page of [newPage] that of the browser; the
    elements of [$] and [$$] and the collection of [$$lazy] that of the page
    or element they were asked of; the elements [forEach] hands to its
    callback that of the collection; the elements [map] hands to its
    callback that of the collection's parent.  [get] resolves with no
    element.  None of these operations, no matcher of the library, and no
    [shouldEqual], [shouldMatch] or [shouldHaveCount] over them writes to
    an options object. *)
Theorem options_handed_down_unwritten (s : State) :
  (forall newBrowser,
     resolved_with (fun page => page_options page = browser_options newBrowser)
       (Browser_newPage world newBrowser s) /\
     same_store s (Browser_newPage world newBrowser s)) /\
  (forall newPage sel,
     resolved_with (fun el => element_options el = page_options newPage)
       (Page_dollar world newPage sel s) /\
     same_store s (Page_dollar world newPage sel s)) /\
  (forall newPage sel,
     resolved_with (Forall (fun el => element_options el = page_options newPage))
       (Page_dollars world newPage sel s) /\
     same_store s (Page_dollars world newPage sel s)) /\
  (forall newPage sel,
     resolved_with (fun c => options c = page_options newPage /\ parent c = ParentPage newPage)
       (Page_dollars_lazy newPage sel s) /\
     same_store s (Page_dollars_lazy newPage sel s)) /\
  (forall extended sel,
     resolved_with (fun el => element_options el = element_options extended)
       (ElementHandle_dollar world extended sel s) /\
     same_store s (ElementHandle_dollar world extended sel s)) /\
  (forall extended sel,
     resolved_with (Forall (fun el => element_options el = element_options extended))
       (ElementHandle_dollars world extended sel s) /\
     same_store s (ElementHandle_dollars world extended sel s)) /\
  (forall extended sel,
     resolved_with
       (fun c => options c = element_options extended /\ parent c = ParentElement extended)
       (ElementHandle_dollars_lazy extended sel s) /\
     same_store s (ElementHandle_dollars_lazy extended sel s)) /\
  (forall this index,
     resolved_with (fun _ => False) (ElementHandles_get world this index s) /\
     same_store s (ElementHandles_get world this index s)) /\
  (forall this cb,
     ElementHandles_forEach world this cb s =
     ElementHandles_forEach world this
       (fun el => cb {| native := native el; element_options := options this |}) s) /\
  (forall U this (cb : ElementHandle -> M U),
     ElementHandles_map world this cb s =
     ElementHandles_map world this
       (fun el => cb {| native := native el;
                        element_options := parent_options (parent this) |}) s) /\
  (forall m element expected,
     same_store s (library_matcher world m element expected s)) /\
  (forall fuel extended m a,
     loop_same_store s (run_assertion world fuel extended (library_matcher world m) a s)) /\
  (forall fuel this count,
     loop_same_store s (ElementHandles_shouldHaveCount world fuel this count s)).
Proof.
  repeat match goal with |- _ /\ _ => split end.
  - intros newBrowser. split; reflexivity.
  - intros newPage sel. unfold Page_dollar, bind, native_dollar, driver, lift.
    destruct (reachable _ _); [|split; reflexivity].
    destruct (head _); split; reflexivity.
  - intros newPage sel. unfold Page_dollars, bind, native_dollars, driver, lift.
    destruct (reachable _ _); [|split; reflexivity].
    rewrite array_map_wrap. split; [apply wrapped_carry | reflexivity].
  - intros newPage sel. split; [split|]; reflexivity.
  - intros extended sel. unfold ElementHandle_dollar, bind, native_dollar, driver, lift.
    destruct (reachable _ _); [|split; reflexivity].
    destruct (head _); split; reflexivity.
  - intros extended sel. unfold ElementHandle_dollars, bind, native_dollars, driver, lift.
    destruct (reachable _ _); [|split; reflexivity].
    rewrite array_map_wrap. split; [apply wrapped_carry | reflexivity].
  - intros extended sel. split; [split|]; reflexivity.
  - intros this index. unfold resolved_with, same_store.
    rewrite get_issues_query.
    unfold ElementHandles_get, bind, unawaited. rewrite parent_dollars_eq.
    split; [exact I | reflexivity].
  - intros this cb. unfold ElementHandles_forEach, bind.
    destruct (parent_dollars _ _ _ _) as [[items|v] s1]; [|reflexivity].
    apply forEach_from_rewraps.
  - intros U this cb. unfold ElementHandles_map, bind.
    rewrite parent_dollars_eq. destruct (reachable _ _); [|reflexivity].
    now rewrite map_of_wrapped.
  - intros m element expected. unfold same_store.
    destruct (library_matcher world m element expected s) as [r s1] eqn:E.
    now destruct (steady_library_matcher _ _ _ _ _ _ E).
  - intros fuel extended m a.
    destruct a as [expected|expected]; cbn [run_assertion].
    + apply poll_same_store, steady_library_matcher.
    + unfold ElementHandle_shouldMatch, and_then, Date_now, lift.
      destruct (to_regexp expected); [|reflexivity].
      apply poll_same_store, steady_library_matcher.
  - intros fuel this count. apply poll_same_store, steady_count_check.
Qed.

(** ** A string that is no pattern *)

(** [shouldMatch] turns a string into a pattern before its loop: with a
    string that [RegExp] refuses it rejects with the error of [RegExp],
    whatever the timeout, the matcher and the fuel. *)
Lemma shouldMatch_bad_pattern fuel extended matcher (pattern : string) (e : JsError) s :
  regexp_new pattern = inr e ->
  ElementHandle_shouldMatch world fuel extended matcher (ExpString pattern) s =
  Some (Rejected (JsObject e), s).
Proof.
  intros H. unfold ElementHandle_shouldMatch, and_then, Date_now, lift.
  cbn [to_regexp]. now rewrite H.
Qed.

End Properties.

(** * Examples on the small page *)

#[local] Existing Instance Demo.literal_engine.





(** A timeout of 0: nothing is checked, [undefined] is thrown. *)
Lemma no_time_no_check_witness :
  ElementHandle_shouldEqual Demo.world 1 Demo.the_link (Text Demo.world) "About google"
    (Demo.state_at 0 {| matchingTimeout := Some 0 |}) =
    Some (Rejected JsUndefined, Demo.state_at 0 {| matchingTimeout := Some 0 |}) /\
  ElementHandle_shouldMatch Demo.world 1 Demo.the_link (Text Demo.world) (ExpString "google")
    (Demo.state_at 0 {| matchingTimeout := Some 0 |}) =
    Some (Rejected JsUndefined, Demo.state_at 0 {| matchingTimeout := Some 0 |}) /\
  ElementHandles_shouldHaveCount Demo.world 1 Demo.the_items 5
    (Demo.state_at 0 {| matchingTimeout := Some 0 |}) =
    Some (Rejected JsUndefined, Demo.state_at 0 {| matchingTimeout := Some 0 |}).
Proof.
  apply (no_time_no_check Demo.world 0 Demo.the_link (Text Demo.world) "About google"
           (ExpString "google") ("google" : @RegExp Demo.literal_engine)
           Demo.the_items 5
           (Demo.state_at 0 {| matchingTimeout := Some 0 |})
           {| matchingTimeout := Some 0 |} {| matchingTimeout := Some 0 |});
    reflexivity.
Defined.

(** Two strings that [RegExp] accepts. *)
Lemma createMatcher_ignores_expected_witness :
  let m := createMatcher Demo.world "class" (fun v => bool_decide (v = Some "gb1")) in
  let s := Demo.state_at 0 {| matchingTimeout := Some 500 |} in
  m Demo.the_link (ExpString "a") s = m Demo.the_link (ExpString "b") s /\
  ElementHandle_shouldEqual Demo.world 9 Demo.the_link m "a" s =
    ElementHandle_shouldEqual Demo.world 9 Demo.the_link m "b" s /\
  ElementHandle_shouldMatch Demo.world 9 Demo.the_link m (ExpString "a") s =
    ElementHandle_shouldMatch Demo.world 9 Demo.the_link m (ExpString "b") s /\
  match ElementHandle_attr Demo.world Demo.the_link "class" s with
  | (Resolved attr, s') =>
      exists msg,
        m Demo.the_link (ExpString "a") s =
        (Resolved (if bool_decide (attr = Some "gb1") then None
                   else Some (UnmatchError msg)), s')
  | (Rejected v, s') => m Demo.the_link (ExpString "a") s = (Rejected v, s')
  end.
Proof.
  apply (createMatcher_ignores_expected Demo.world "class"
           (fun v => bool_decide (v = Some "gb1")) Demo.the_link "a" "b"
           (ExpString "a") (ExpString "b")
           ("a" : @RegExp Demo.literal_engine) ("b" : @RegExp Demo.literal_engine)
           9 (Demo.state_at 0 {| matchingTimeout := Some 500 |}));
    reflexivity.
Defined.

(** ** The scenarios of the specification *)

(** The link reads "Loading..." and then, from 300 ms on, "About google":
    with a timeout of 10000 ms [shouldEqual(Text, "About google")] resolves,
    at its fourth check. *)
Example loading_then_about_google :
  ElementHandle_shouldEqual Demo.world 200 Demo.the_link (Text Demo.world)
    "About google" (Demo.state_at 0 {| matchingTimeout := Some 10000 |}) =
  Some (Resolved tt,
        {| now := 320;
           calls := [CallEvaluateText 1; CallEvaluateText 1;
                     CallEvaluateText 1; CallEvaluateText 1];
           pages := 1; store := [{| matchingTimeout := Some 10000 |}] |}).
Proof. reflexivity. Qed.

(** Five items, [shouldHaveCount(8)], a timeout of 500 ms: the call rejects
    at 525 ms, after five queries, and the message holds 8 and 5. *)
Example five_items_are_not_eight :
  ElementHandles_shouldHaveCount Demo.world 200 Demo.the_items 8
    (Demo.state_at 0 {| matchingTimeout := Some 500 |}) =
  Some (Rejected
          (JsObject
             (Error "Failed to match element counts. Expected count is 8 but was 5")),
        {| now := 525; calls := replicate 5 (CallQueryAll (PageRoot 0) "li");
           pages := 1; store := [{| matchingTimeout := Some 500 |}] |}).
Proof. reflexivity. Qed.

(** Two calls on one collection: the first sees five items; by the second,
    a second later, the list has grown, and it sees eight. *)
Example second_call_sees_new_items :
  let query := CallQueryAll (PageRoot 0) "li" in
  let s1 := {| now := 5; calls := [query]; pages := 1;
               store := [{| matchingTimeout := Some 500 |}] |} in
  ElementHandles_shouldHaveCount Demo.world 1 Demo.the_items 5
    (Demo.state_at 0 {| matchingTimeout := Some 500 |}) = Some (Resolved tt, s1) /\
  ElementHandles_shouldHaveCount Demo.world 1 Demo.the_items 8 (advance 1000 s1) =
    Some (Resolved tt,
          {| now := 1010; calls := [query; query]; pages := 1;
             store := [{| matchingTimeout := Some 500 |}] |}).
Proof. split; reflexivity. Qed.

(** [launch({})] and then an assertion: the options object has no
    [matchingTimeout], no check runs and [undefined] is thrown. *)
Example launch_with_empty_options :
  let s0 := Demo.state_at 0 {| matchingTimeout := None |} in
  let s1 := {| now := 5; calls := [CallLaunch]; pages := 1;
               store := [{| matchingTimeout := None |}] |} in
  launch Demo.world (Some 0%nat) s0 = (Resolved {| browser_options := 0%nat |}, s1) /\
  ElementHandle_shouldEqual Demo.world 9 Demo.the_link (Text Demo.world)
    "About google" s1 = Some (Rejected JsUndefined, s1).
Proof. split; reflexivity. Qed.

(** * Where the claims as first stated fail *)



(** C6 as first stated, for an options object without [matchingTimeout]
    (the call [launch({})]): the browser holds that object, and the timeout
    its wrappers read is [undefined], not 10000. *)
Lemma launch_fills_no_default :
  let s0 := Demo.state_at 0 {| matchingTimeout := None |} in
  exists s',
    launch Demo.world (Some 0%nat) s0 = (Resolved {| browser_options := 0%nat |}, s') /\
    read_matchingTimeout 0%nat s' = (Resolved None, s') /\
    read_matchingTimeout 0%nat s' <> (Resolved (Some 10000), s').
Proof.
  cbv zeta. eexists. split; [reflexivity|]. split; [reflexivity|]. discriminate.
Qed.

(** C8 as first stated, where it says the configuration is not read again.
    A matcher of the test sets [matchingTimeout] to 0 in the options object
    it shares with the browser.  [shouldEqual], entered with a timeout of
    10000, gives up after one check, at 100 ms: its loop read the object
    again.  A loop that read it once would go on to 10000 ms. *)
Lemma configuration_is_read_again :
  let s0 := Demo.state_at 0 {| matchingTimeout := Some 10000 |} in
  ElementHandle_shouldEqual Demo.world 200 Demo.the_link Demo.meddling "x" s0 =
    Some (Rejected (JsObject (Error "not yet")),
          {| now := 100; calls := []; pages := 1;
             store := [{| matchingTimeout := Some 0 |}] |}) /\
  shouldEqual_read_once Demo.world 200 Demo.the_link Demo.meddling "x" s0 =
    Some (Rejected (JsObject (Error "not yet")),
          {| now := 10000; calls := []; pages := 1;
             store := [{| matchingTimeout := Some 0 |}] |}) /\
  ElementHandle_shouldEqual Demo.world 200 Demo.the_link Demo.meddling "x" s0 <>
  shouldEqual_read_once Demo.world 200 Demo.the_link Demo.meddling "x" s0.
Proof.
  cbv zeta. split; [vm_compute; reflexivity|]. split; [vm_compute; reflexivity|].
  intros H. vm_compute in H. discriminate H.
Qed.

(** C9 as first stated, for every expected value.  With a timeout of 0 and
    a string that is no pattern, [shouldMatch] rejects with the
    [SyntaxError] of [RegExp], an [Error] value, not with [undefined]. *)
Lemma no_time_bad_pattern_throws_error :
  let s0 := Demo.state_at 0 {| matchingTimeout := Some 0 |} in
  ElementHandle_shouldMatch Demo.world 9 Demo.the_link (Text Demo.world)
    (ExpString "(") s0 =
    Some (Rejected (JsObject (SyntaxError "Invalid regular expression: /(/")), s0) /\
  ElementHandle_shouldMatch Demo.world 9 Demo.the_link (Text Demo.world)
    (ExpString "(") s0 <> Some (Rejected JsUndefined, s0).
Proof.
  cbv zeta. split; [reflexivity|]. intros H. vm_compute in H. discriminate H.
Qed.

(** C10 as first stated, for every two expected values.  The class of the
    link is "gb1" and the matcher asks for that.  Through [shouldMatch] the
    expected value "gb1" resolves at the first check, and the expected
    value "(" rejects with the [SyntaxError] of [RegExp]. *)
Lemma createMatcher_expected_matters_to_shouldMatch :
  let m := createMatcher Demo.world "class" (fun v => bool_decide (v = Some "gb1")) in
  let s0 := Demo.state_at 0 {| matchingTimeout := Some 500 |} in
  ElementHandle_shouldMatch Demo.world 9 Demo.the_link m (ExpString "gb1") s0 =
    Some (Resolved tt,
          {| now := 5; calls := [CallEvaluateAttribute 1 "class"]; pages := 1;
             store := [{| matchingTimeout := Some 500 |}] |}) /\
  ElementHandle_shouldMatch Demo.world 9 Demo.the_link m (ExpString "(") s0 =
    Some (Rejected (JsObject (SyntaxError "Invalid regular expression: /(/")), s0) /\
  ElementHandle_shouldMatch Demo.world 9 Demo.the_link m (ExpString "gb1") s0 <>
  ElementHandle_shouldMatch Demo.world 9 Demo.the_link m (ExpString "(") s0.
Proof.
  cbv zeta. split; [reflexivity|]. split; [reflexivity|].
  intros H. vm_compute in H. discriminate H.
Qed.

(** * More of the library *)

Section Coverage.

Context (world : World) {engine : RegExpEngine}.


(** ** Matchers, read off the document *)

Lemma native_evaluate_eq {A} (c : DriverCall) (node : nat) (fn : Element -> A) s :
  native_evaluate world c node fn s =
  (match nodes (dom world (now s)) !! node with
   | Some it => Resolved (fn it)
   | None => Rejected (JsObject disposed)
   end, after_call world c s).
Proof. reflexivity. Qed.

Lemma library_read_eq (m : LibraryMatcher) element s :
  library_read world m element s =
  (match nodes (dom world (now s)) !! native element with
   | Some it => Resolved (library_observes m it)
   | None => Rejected (JsObject disposed)
   end, after_call world (library_call m element) s).
Proof. destruct m as [[]|attribute matchFn]; reflexivity. Qed.

(** X1.  While the browser holds the element, an exported matcher makes
    one driver call and resolves when the call is answered.  It resolves
    with no error exactly when what it read satisfies [expected]: equals
    it, for a string; passes [test], for a pattern, which is tried on the
    value as printed.  An error it resolves with is an [UnmatchError]
    whose message holds [expected] as printed and the value as printed. *)
Theorem builtin_verdict_from_document (k : BuiltIn) (element : ElementHandle)
    (expected : Expected) (s : State) (it : Element) :
  nodes (dom world (now s)) !! native element = Some it ->
  exists verdict,
    builtin_matcher world k element expected s =
      (Resolved verdict, after_call world (builtin_call k element) s) /\
    (verdict = None <-> satisfies expected (builtin_observes k it) = true) /\
    (forall e, verdict = Some e ->
       name e = "UnmatchError" /\
       contains (printed expected) (message e) /\
       contains (template (builtin_observes k it)) (message e)).
Proof.
  intros Hit.
  destruct k; cbn [builtin_matcher builtin_call builtin_observes];
    unfold Text, Value, Class_, Style, bind, ElementHandle_text, ElementHandle_value,
      ElementHandle_class, ElementHandle_style, ElementHandle_attr;
    rewrite native_evaluate_eq, Hit;
    destruct expected as [expected|expected]; cbn [satisfies printed]; unfold strict_ne;
    match goal with |- context [negb ?b] => destruct b eqn:E end; cbn [negb]; unfold ret;
    eexists; (split; [reflexivity|]); split;
    try (split; intros _; reflexivity);
    try (split; discriminate);
    try (intros e [=]; fail);
    intros e [= <-]; cbn [name message UnmatchError];
    (split; [reflexivity|]); split; find_piece.
Qed.

(** X2.  An element that lacks the attribute a matcher reads: [getAttribute]
    gives [null], which is no string, so [Value], [Class] and [Style] resolve
    with an error for every literal, the literal "null" too, and the message
    prints the value as null.  A pattern is tried on the text "null". *)
Theorem missing_attribute_reads_null (k : BuiltIn) (element : ElementHandle)
    (s : State) (it : Element) :
  nodes (dom world (now s)) !! native element = Some it ->
  builtin_observes k it = None ->
  (forall expected : string, exists msg,
     builtin_matcher world k element (ExpString expected) s =
       (Resolved (Some (UnmatchError msg)), after_call world (builtin_call k element) s) /\
     contains "null" msg) /\
  (forall r : RegExp, exists verdict,
     builtin_matcher world k element (ExpRegExp r) s =
       (Resolved verdict, after_call world (builtin_call k element) s) /\
     (verdict = None <-> regexp_test r "null" = true)).
Proof.
  intros Hit Hnone.
  destruct k; cbn [builtin_observes] in Hnone; [discriminate| | |];
    cbn [builtin_matcher builtin_call];
    unfold Value, Class_, Style, bind, ElementHandle_value,
      ElementHandle_class, ElementHandle_style, ElementHandle_attr;
    rewrite native_evaluate_eq, Hit, Hnone; cbn [template];
    (split;
     [ intros expected; eexists; split; [reflexivity | find_piece]
     | intros r; destruct (regexp_test r "null") eqn:E; cbn [negb]; eexists;
       (split; [reflexivity|]); split; (reflexivity || discriminate || (intros _; reflexivity)) ]).
Qed.


Lemma library_matcher_dropped (m : LibraryMatcher) (element : ElementHandle)
    (expected : Expected) (s : State) :
  nodes (dom world (now s)) !! native element = None ->
  library_matcher world m element expected s =
  (Rejected (JsObject disposed), after_call world (library_call m element) s).
Proof.
  intros Hgone.
  destruct m as [[]|attribute matchFn]; cbn [library_matcher builtin_matcher library_call builtin_call];
    unfold Text, Value, Class_, Style, createMatcher, bind, ElementHandle_text,
      ElementHandle_value, ElementHandle_class, ElementHandle_style, ElementHandle_attr;
    rewrite native_evaluate_eq, Hgone; reflexivity.
Qed.

Lemma library_matcher_held (m : LibraryMatcher) (element : ElementHandle)
    (expected : Expected) (s : State) (it : Element) :
  nodes (dom world (now s)) !! native element = Some it ->
  exists verdict,
    library_matcher world m element expected s =
      (Resolved verdict, after_call world (library_call m element) s) /\
    (verdict = None <-> library_satisfied m expected it = true).
Proof.
  intros Hit.
  destruct m as [[]|attribute matchFn];
    cbn [library_matcher builtin_matcher library_call builtin_call library_satisfied
         builtin_observes];
    unfold Text, Value, Class_, Style, createMatcher, bind, ElementHandle_text,
      ElementHandle_value, ElementHandle_class, ElementHandle_style, ElementHandle_attr;
    rewrite native_evaluate_eq, Hit;
    try (destruct expected as [expected|expected]; cbn [satisfies]; unfold strict_ne);
    match goal with |- context [negb ?b] => destruct b eqn:E end; cbn [negb]; unfold ret;
    eexists; (split; [reflexivity|]);
    first [ split; intros _; reflexivity | split; discriminate ].
Qed.

(** X4.  On an element the browser no longer holds, every matcher of the
    library rejects with the driver's error, after the one call it made;
    the error is not turned into an [UnmatchError]. *)
Theorem library_matcher_on_dropped_element (m : LibraryMatcher) (element : ElementHandle)
    (expected : Expected) (s : State) :
  nodes (dom world (now s)) !! native element = None ->
  library_matcher world m element expected s =
  (Rejected (JsObject disposed), after_call world (library_call m element) s).
Proof. apply library_matcher_dropped. Qed.

(** ** The loop after a run of failed iterations *)

(** After a run of failed iterations the loop goes on from the state the
    run ended in, with the last error of the run stored. *)
Lemma poll_after_failing_run options start check s0 errs s :
  failing_run world options start check s0 errs s ->
  forall fuel error,
    poll world (length errs + fuel) options start check error s0 =
    poll world fuel options start check
      (match last errs with Some e => Some e | None => error end) s.
Proof.
  induction 1 as [s|s e s1 s2 errs s' Hc Hk Hs _ IH]; intros fuel error; [reflexivity|].
  cbn [length Nat.add].
  rewrite (poll_retry _ _ _ _ _ _ _ _ _ _ Hc Hk Hs), IH, last_cons.
  now destruct (last errs).
Qed.

(** X5.  One passing check is enough, however many failed before it: if,
    after a run of failed iterations, the loop condition still holds and the
    matcher resolves with no error, [shouldEqual] and [shouldMatch] resolve
    in the state that check ended in, without another sleep.  The fuel that
    is enough is one more than the number of failed checks. *)
Theorem assertion_resolves_at_first_pass (fuel : nat) (extended : ElementHandle)
    (matcher : Matcher) (a : Assertion) (x : Expected) (s0 s s1 : State)
    (errs : list JsError) :
  assertion_argument a = Resolved x ->
  failing_run world (element_options extended) (now s0) (matcher extended x) s0 errs s ->
  loop_condition (element_options extended) (now s0) s = (Resolved true, s) ->
  matcher extended x s = (Resolved None, s1) ->
  (length errs < fuel)%nat ->
  run_assertion world fuel extended matcher a s0 = Some (Resolved tt, s1).
Proof.
  intros Ha Hrun Hc Hk Hfuel.
  rewrite (run_assertion_eq _ _ _ _ _ _ _ Ha).
  replace fuel with (length errs + S (fuel - length errs - 1))%nat by lia.
  rewrite (poll_after_failing_run _ _ _ _ _ _ Hrun).
  now apply poll_pass.
Qed.

(** X6.  A check that rejects ends the assertion at once: if, after a run
    of failed iterations, the matcher rejects (the driver lost the element,
    or a matcher of the caller threw), [shouldEqual] and [shouldMatch]
    reject with that very value in the state the check ended in.  The loop
    neither retries nor falls back on the error it had stored. *)
Theorem assertion_aborts_on_rejected_check (fuel : nat) (extended : ElementHandle)
    (matcher : Matcher) (a : Assertion) (x : Expected) (s0 s s1 : State)
    (errs : list JsError) (v : JsValue) :
  assertion_argument a = Resolved x ->
  failing_run world (element_options extended) (now s0) (matcher extended x) s0 errs s ->
  loop_condition (element_options extended) (now s0) s = (Resolved true, s) ->
  matcher extended x s = (Rejected v, s1) ->
  (length errs < fuel)%nat ->
  run_assertion world fuel extended matcher a s0 = Some (Rejected v, s1).
Proof.
  intros Ha Hrun Hc Hk Hfuel.
  rewrite (run_assertion_eq _ _ _ _ _ _ _ Ha).
  replace fuel with (length errs + S (fuel - length errs - 1))%nat by lia.
  rewrite (poll_after_failing_run _ _ _ _ _ _ Hrun).
  now apply poll_throw.
Qed.

(** X7.  [shouldHaveCount] on a parent element the browser has dropped: the
    query is rejected by the driver, and the call rejects with the driver's
    error at that iteration, not with a count error and not at the
    deadline. *)
Theorem count_aborts_when_parent_dropped (fuel : nat) (this : ElementHandles)
    (count : Z) (s0 s : State) (errs : list JsError) :
  failing_run world (options this) (now s0) (count_check world this count) s0 errs s ->
  loop_condition (options this) (now s0) s = (Resolved true, s) ->
  reachable (dom world (now s)) (parent_root (parent this)) = false ->
  (length errs < fuel)%nat ->
  ElementHandles_shouldHaveCount world fuel this count s0 =
  Some (Rejected (JsObject disposed),
        after_call world (CallQueryAll (parent_root (parent this)) (selector this)) s).
Proof.
  intros Hrun Hc Hgone Hfuel.
  unfold ElementHandles_shouldHaveCount, and_then, Date_now.
  replace fuel with (length errs + S (fuel - length errs - 1))%nat by lia.
  rewrite (poll_after_failing_run _ _ _ _ _ _ Hrun).
  apply poll_throw; [exact Hc|].
  unfold count_check, bind. now rewrite parent_dollars_eq, Hgone.
Qed.

(** ** How long a loop runs, and how often it asks *)










(** ** Queries *)


Lemma Promise_all_pure {U A} (f : A -> U) (l : list A) s :
  Promise_all (List.map (fun x => ret (f x)) l) s = (Resolved (f <$> l), s).
Proof.
  induction l as [|x l IH]; [reflexivity|].
  cbn [List.map Promise_all]. unfold bind at 1. cbn [ret].
  unfold bind. now rewrite IH.
Qed.

Lemma Promise_all_length {U} (promises : list (M U)) s rs s' :
  Promise_all promises s = (Resolved rs, s') -> length rs = length promises.
Proof.
  revert s rs s'. induction promises as [|p ps IH]; intros s rs s'.
  - intros [= <- _]. reflexivity.
  - cbn [Promise_all]. unfold bind at 1.
    destruct (p s) as [[x|v] s1]; [|discriminate].
    unfold bind. destruct (Promise_all ps s1) as [[xs|v] s2] eqn:E; [|discriminate].
    intros [= <- _]. cbn [length]. f_equal. eapply IH, E.
Qed.

(** X12.  When nothing matches the selector, on a parent that answers:
    [$$] resolves with the empty array, [map] resolves with the empty array
    and [forEach] resolves, neither having called its callback, and
    [shouldHaveCount(0)] resolves at its first check (given any positive
    timeout).  Each makes the one query and nothing more. *)
Theorem nothing_matches (this : ElementHandles) (s : State) (o : LaunchOptions) (t : Z) :
  store s !! options this = Some o ->
  matchingTimeout o = Some t ->
  0 < t ->
  reachable (dom world (now s)) (parent_root (parent this)) = true ->
  live_set world this s = [] ->
  let asked :=
    after_call world (CallQueryAll (parent_root (parent this)) (selector this)) s in
  parent_dollars world (parent this) (selector this) s = (Resolved [], asked) /\
  (forall U (cb : ElementHandle -> M U),
     ElementHandles_map world this cb s = (Resolved [], asked)) /\
  (forall cb, ElementHandles_forEach world this cb s = (Resolved tt, asked)) /\
  (forall fuel,
     ElementHandles_shouldHaveCount world (S fuel) this 0 s = Some (Resolved tt, asked)).
Proof.
  intros Ho Ht Hpos Hreach Hempty asked.
  assert (Hq : parent_dollars world (parent this) (selector this) s = (Resolved [], asked)).
  { rewrite parent_dollars_eq, Hreach, Hempty. reflexivity. }
  split; [exact Hq|].
  split; [intros U cb; unfold ElementHandles_map, bind; now rewrite Hq|].
  split; [intros cb; unfold ElementHandles_forEach, bind; now rewrite Hq|].
  intros fuel. unfold ElementHandles_shouldHaveCount, and_then, Date_now.
  apply poll_pass.
  - rewrite (loop_condition_eq _ _ _ o Ho), Ht. cbn [before_deadline].
    f_equal. f_equal. apply Z.gtb_lt. lia.
  - rewrite count_check_eq by assumption. now rewrite Hempty.
Qed.

(** ** map and forEach *)

(** X13.  [map] gives one result for each element of the live set, in the
    order of the live set: with a callback that computes [f] of the element
    it resolves with the live set mapped by [f], and whenever it resolves,
    with whatever callback, the array is as long as the live set. *)
Theorem map_keeps_order_and_length (this : ElementHandles) (s : State) :
  reachable (dom world (now s)) (parent_root (parent this)) = true ->
  let live :=
    (fun it => {| native := it; element_options := parent_options (parent this) |})
      <$> live_set world this s in
  (forall U (f : ElementHandle -> U),
     ElementHandles_map world this (fun el => ret (f el)) s =
     (Resolved (f <$> live),
      after_call world (CallQueryAll (parent_root (parent this)) (selector this)) s)) /\
  (forall U (cb : ElementHandle -> M U),
     resolved_with (fun rs => length rs = length (live_set world this s))
       (ElementHandles_map world this cb s)).
Proof.
  intros Hreach live. split.
  - intros U f. unfold ElementHandles_map, bind.
    rewrite parent_dollars_eq, Hreach. apply Promise_all_pure.
  - intros U cb. unfold resolved_with, ElementHandles_map, bind.
    rewrite parent_dollars_eq, Hreach.
    destruct (Promise_all _ _) as [[rs|v] s'] eqn:E; [|exact I]. cbn [fst].
    rewrite (Promise_all_length _ _ _ _ E), length_map. now rewrite length_fmap.
Qed.

Lemma forEach_from_imap options options' cb (items : list nat) (i : nat) s :
  forEach_from options cb
    ((fun it => {| native := it; element_options := options' |}) <$> items) i s =
  bind (Promise_all
          (imap (fun j it => cb {| native := it; element_options := options |} (i + j)%nat)
             items))
       (fun _ => ret tt) s.
Proof.
  revert i s. induction items as [|x items IH]; intros i s; [reflexivity|].
  cbn [fmap list_fmap forEach_from wrapElementHandle native imap Promise_all].
  rewrite Nat.add_0_r. unfold bind at 1 2 3 4. unfold lift.
  destruct (cb _ i s) as [[[]|v] s1]; [|reflexivity].
  change (list_fmap _ _ ?f items) with (f <$> items).
  rewrite IH. unfold bind.
  rewrite (imap_ext _ (fun j it => cb {| native := it; element_options := options |}
                         (i + S j)%nat) items).
  - now destruct (Promise_all _ s1) as [[xs|v] s2].
  - intros j y _. cbn. f_equal. lia.
Qed.

(** X14.  [forEach] visits the elements of the live set in order, one
    after the other, handing the callback the element wrapped with the
    options of the collection and its position counted from 0; it stops at
    the first callback that throws.  It is the sequence of those calls,
    their results dropped. *)
Theorem forEach_visits_in_order (this : ElementHandles)
    (cb : ElementHandle -> nat -> M unit) (s : State) :
  reachable (dom world (now s)) (parent_root (parent this)) = true ->
  ElementHandles_forEach world this cb s =
  bind (Promise_all
          (imap (fun i it => cb {| native := it; element_options := options this |} i)
             (live_set world this s)))
       (fun _ => ret tt)
       (after_call world (CallQueryAll (parent_root (parent this)) (selector this)) s).
Proof.
  intros Hreach. unfold ElementHandles_forEach. unfold bind at 1.
  rewrite parent_dollars_eq, Hreach.
  apply forEach_from_imap.
Qed.

(** ** From launch to the wrappers *)

(** X15.  The options [launch] settles on are the options of everything
    made from the browser.  Let [o] be the object the caller passed, or
    [{ matchingTimeout: 10000 }] if none was passed.  After [launch] and
    [newPage], the page holds [o]; and as long as nobody writes to the
    option objects, the element of [$], the elements of [$$] and the
    collection of [$$lazy] on that page hold [o], and so do the elements
    found under such an element. *)
Theorem launched_options_reach_every_wrapper (opts : option OptRef) (s : State)
    (o : LaunchOptions) :
  match opts with
  | None => o = {| matchingTimeout := Some 10000 |}
  | Some r => store s !! r = Some o
  end ->
  exists b p s2,
    (b <- launch world opts ;; p <- Browser_newPage world b ;; ret (b, p)) s =
      (Resolved (b, p), s2) /\
    store s2 !! page_options p = Some o /\
    forall s3 sel,
      store s3 = store s2 ->
      resolved_with (fun el => store s3 !! element_options el = Some o)
        (Page_dollar world p sel s3) /\
      resolved_with (Forall (fun el => store s3 !! element_options el = Some o))
        (Page_dollars world p sel s3) /\
      resolved_with (fun c => store s3 !! options c = Some o)
        (Page_dollars_lazy p sel s3) /\
      (forall el sel',
         store s3 !! element_options el = Some o ->
         resolved_with (Forall (fun el' => store s3 !! element_options el' = Some o))
           (ElementHandle_dollars world el sel' s3)).
Proof.
  intros Hopts.
  assert (Hwrapped : forall (r : OptRef) (l : list LaunchOptions) hs,
            l !! r = Some o ->
            Forall (fun el => l !! element_options el = Some o)
              ((fun it => {| native := it; element_options := r |}) <$> hs)).
  { intros r l hs Hr. induction hs; constructor; assumption. }
  destruct opts as [r|].
  - eexists _, _, _. split; [reflexivity|]. cbn [page_options wrapPage browser_options wrapBrowser].
    split; [exact Hopts|].
    intros s3 sel Hs3. cbn [store advance issue] in Hs3. rewrite <- Hs3 in Hopts.
    repeat split.
    + unfold resolved_with, Page_dollar, bind, native_dollar, driver, lift.
      cbn [reachable]. destruct (head _); [exact Hopts | exact I].
    + unfold resolved_with, Page_dollars, bind, native_dollars, driver, lift.
      cbn [reachable]. rewrite array_map_wrap. now apply Hwrapped.
    + exact Hopts.
    + intros el sel' Hel.
      unfold resolved_with, ElementHandle_dollars, bind, native_dollars, driver, lift.
      destruct (reachable _ _); [|exact I].
      rewrite array_map_wrap. now apply Hwrapped.
  - subst o. eexists _, _, _. split; [reflexivity|].
    cbn [page_options wrapPage browser_options wrapBrowser store advance issue].
    assert (Hnew : (store s ++ [{| matchingTimeout := Some 10000 |}])%list
                     !! length (store s) = Some {| matchingTimeout := Some 10000 |})
      by now apply list_lookup_middle.
    split; [exact Hnew|].
    intros s3 sel Hs3. rewrite <- Hs3 in Hnew.
    repeat split.
    + unfold resolved_with, Page_dollar, bind, native_dollar, driver, lift.
      cbn [reachable]. destruct (head _); [exact Hnew | exact I].
    + unfold resolved_with, Page_dollars, bind, native_dollars, driver, lift.
      cbn [reachable]. rewrite array_map_wrap. now apply Hwrapped.
    + exact Hnew.
    + intros el sel' Hel.
      unfold resolved_with, ElementHandle_dollars, bind, native_dollars, driver, lift.
      destruct (reachable _ _); [|exact I].
      rewrite array_map_wrap. now apply Hwrapped.
Qed.

(** X16.  Two browsers launched without options do not share their
    options: each [launch] makes an object of its own, both with a timeout
    of 10000, and a write to the one leaves the other as it is.  Two
    browsers launched with one options object share it. *)
Theorem default_options_are_not_shared (s : State) :
  (exists b1 b2 s2,
     (b1 <- launch world None ;; b2 <- launch world None ;; ret (b1, b2)) s =
       (Resolved (b1, b2), s2) /\
     browser_options b1 <> browser_options b2 /\
     store s2 !! browser_options b1 = Some {| matchingTimeout := Some 10000 |} /\
     store s2 !! browser_options b2 = Some {| matchingTimeout := Some 10000 |} /\
     forall o,
       <[browser_options b1 := o]> (store s2) !! browser_options b2 =
       Some {| matchingTimeout := Some 10000 |}) /\
  (forall r : OptRef, exists b1 b2 s2,
     (b1 <- launch world (Some r) ;; b2 <- launch world (Some r) ;; ret (b1, b2)) s =
       (Resolved (b1, b2), s2) /\
     browser_options b1 = r /\ browser_options b2 = r /\ store s2 = store s).
Proof.
  split.
  - eexists _, _, _. split; [reflexivity|].
    cbn [browser_options wrapBrowser store advance issue length].
    rewrite length_app. cbn [length].
    assert (H1 : ((store s ++ [{| matchingTimeout := Some 10000 |}]) ++
                  [{| matchingTimeout := Some 10000 |}])%list !! length (store s) =
                 Some {| matchingTimeout := Some 10000 |}).
    { rewrite <- app_assoc. now apply list_lookup_middle. }
    assert (H2 : ((store s ++ [{| matchingTimeout := Some 10000 |}]) ++
                  [{| matchingTimeout := Some 10000 |}])%list !! (length (store s) + 1)%nat =
                 Some {| matchingTimeout := Some 10000 |}).
    { apply list_lookup_middle. rewrite length_app. reflexivity. }
    split; [lia|]. split; [exact H1|]. split; [exact H2|].
    intros o. rewrite list_lookup_insert_ne by lia. exact H2.
  - intros r. eexists _, _, _. split; [reflexivity|]. repeat split.
Qed.

(** X17.  An assertion on an element that satisfies it already resolves at
    its first check, after the one read and without sleeping: for a matcher
    of the library, a positive timeout, and an element the browser holds
    whose value satisfies what the assertion hands to the matcher (the
    string for [shouldEqual], the pattern for [shouldMatch]; the predicate
    for a matcher of [createMatcher]). *)
Theorem satisfied_assertion_resolves_at_once (fuel : nat) (extended : ElementHandle)
    (m : LibraryMatcher) (a : Assertion) (x : Expected) (s : State)
    (o : LaunchOptions) (t : Z) (it : Element) :
  assertion_argument a = Resolved x ->
  store s !! element_options extended = Some o ->
  matchingTimeout o = Some t ->
  0 < t ->
  nodes (dom world (now s)) !! native extended = Some it ->
  library_satisfied m x it = true ->
  run_assertion world (S fuel) extended (library_matcher world m) a s =
  Some (Resolved tt, after_call world (library_call m extended) s).
Proof.
  intros Ha Ho Ht Hpos Hit Hsat.
  rewrite (run_assertion_eq _ _ _ _ _ _ _ Ha).
  apply poll_pass.
  - rewrite (loop_condition_eq _ _ _ o Ho), Ht. cbn [before_deadline].
    f_equal. f_equal. apply Z.gtb_lt. lia.
  - destruct (library_matcher_held m extended x s it Hit) as (verdict & -> & Hiff).
    f_equal. f_equal. now apply Hiff.
Qed.

End Coverage.

(** * More examples on the small page *)

(** From 300 ms on the link reads "About google": [Text] with the pattern
    /google/ finds it. *)
Lemma builtin_verdict_from_document_witness :
  exists verdict,
    builtin_matcher Demo.world IsText Demo.the_link
      (ExpRegExp ("google" : @RegExp Demo.literal_engine))
      (Demo.state_at 300 {| matchingTimeout := Some 500 |}) =
      (Resolved verdict,
       after_call Demo.world (CallEvaluateText 1)
         (Demo.state_at 300 {| matchingTimeout := Some 500 |})) /\
    (verdict = None <->
     satisfies (ExpRegExp ("google" : @RegExp Demo.literal_engine))
       (Some "About google") = true) /\
    (forall e, verdict = Some e ->
       name e = "UnmatchError" /\
       contains "/google/" (message e) /\
       contains "About google" (message e)).
Proof.
  apply (builtin_verdict_from_document Demo.world IsText Demo.the_link
           (ExpRegExp ("google" : @RegExp Demo.literal_engine))
           (Demo.state_at 300 {| matchingTimeout := Some 500 |}) Demo.link).
  reflexivity.
Defined.

(** The link has no "value": [Value] fails on every literal and prints
    null. *)
Lemma missing_attribute_reads_null_witness :
  (forall expected : string, exists msg,
     Value Demo.world Demo.the_link (ExpString expected)
       (Demo.state_at 300 {| matchingTimeout := Some 500 |}) =
       (Resolved (Some (UnmatchError msg)),
        after_call Demo.world (CallEvaluateAttribute 1 "value")
          (Demo.state_at 300 {| matchingTimeout := Some 500 |})) /\
     contains "null" msg) /\
  (forall r : @RegExp Demo.literal_engine, exists verdict,
     Value Demo.world Demo.the_link (ExpRegExp r)
       (Demo.state_at 300 {| matchingTimeout := Some 500 |}) =
       (Resolved verdict,
        after_call Demo.world (CallEvaluateAttribute 1 "value")
          (Demo.state_at 300 {| matchingTimeout := Some 500 |})) /\
     (verdict = None <-> regexp_test r "null" = true)).
Proof.
  apply (missing_attribute_reads_null Demo.world IsValue Demo.the_link
           (Demo.state_at 300 {| matchingTimeout := Some 500 |}) Demo.link);
    reflexivity.
Defined.


(** The browser holds no element 99. *)
Lemma library_matcher_on_dropped_element_witness :
  Text Demo.world Demo.the_ghost (ExpString "About google")
    (Demo.state_at 0 {| matchingTimeout := Some 500 |}) =
  (Rejected (JsObject disposed),
   after_call Demo.world (CallEvaluateText 99)
     (Demo.state_at 0 {| matchingTimeout := Some 500 |})).
Proof.
  apply (library_matcher_on_dropped_element Demo.world (Exported IsText) Demo.the_ghost
           (ExpString "About google")
           (Demo.state_at 0 {| matchingTimeout := Some 500 |})).
  reflexivity.
Defined.

(** Three checks fail while the link reads "Loading...", the fourth
    passes. *)
Lemma assertion_resolves_at_first_pass_witness :
  run_assertion Demo.world 4 Demo.the_link (Text Demo.world)
    (ShouldEqual "About google")
    (Demo.state_at 0 {| matchingTimeout := Some 10000 |}) =
  Some (Resolved tt,
        {| now := 320; calls := replicate 4 (CallEvaluateText 1); pages := 1;
           store := [{| matchingTimeout := Some 10000 |}] |}).
Proof.
  eapply (assertion_resolves_at_first_pass Demo.world 4 Demo.the_link (Text Demo.world)
            (ShouldEqual "About google") (ExpString "About google")
            (Demo.state_at 0 {| matchingTimeout := Some 10000 |})).
  - reflexivity.
  - do 3 (eapply failing_cons; [reflexivity | reflexivity | reflexivity |]).
    apply failing_nil.
  - reflexivity.
  - reflexivity.
  - cbn. lia.
Defined.

(** [shouldEqual] on the element the browser does not hold. *)
Lemma assertion_aborts_on_rejected_check_witness :
  run_assertion Demo.world 1 Demo.the_ghost (Text Demo.world) (ShouldEqual "About google")
    (Demo.state_at 0 {| matchingTimeout := Some 500 |}) =
  Some (Rejected (JsObject disposed),
        after_call Demo.world (CallEvaluateText 99)
          (Demo.state_at 0 {| matchingTimeout := Some 500 |})).
Proof.
  apply (assertion_aborts_on_rejected_check Demo.world 1 Demo.the_ghost (Text Demo.world)
           (ShouldEqual "About google") (ExpString "About google")
           (Demo.state_at 0 {| matchingTimeout := Some 500 |})
           (Demo.state_at 0 {| matchingTimeout := Some 500 |}) _ []).
  - reflexivity.
  - apply failing_nil.
  - reflexivity.
  - reflexivity.
  - cbn. lia.
Defined.

(** [shouldHaveCount] under the element the browser does not hold. *)
Lemma count_aborts_when_parent_dropped_witness :
  ElementHandles_shouldHaveCount Demo.world 1 Demo.the_ghost_items 3
    (Demo.state_at 0 {| matchingTimeout := Some 500 |}) =
  Some (Rejected (JsObject disposed),
        after_call Demo.world (CallQueryAll (ElementNode 99) "li")
          (Demo.state_at 0 {| matchingTimeout := Some 500 |})).
Proof.
  apply (count_aborts_when_parent_dropped Demo.world 1 Demo.the_ghost_items 3
           (Demo.state_at 0 {| matchingTimeout := Some 500 |})
           (Demo.state_at 0 {| matchingTimeout := Some 500 |}) []).
  - apply failing_nil.
  - reflexivity.
  - reflexivity.
  - cbn. lia.
Defined.




(** The page has no table. *)
Lemma nothing_matches_witness :
  let s := Demo.state_at 0 {| matchingTimeout := Some 500 |} in
  let asked := after_call Demo.world (CallQueryAll (PageRoot 0) "table") s in
  parent_dollars Demo.world (ParentPage Demo.the_page) "table" s = (Resolved [], asked) /\
  (forall U (cb : ElementHandle -> M U),
     ElementHandles_map Demo.world Demo.no_items cb s = (Resolved [], asked)) /\
  (forall cb, ElementHandles_forEach Demo.world Demo.no_items cb s = (Resolved tt, asked)) /\
  (forall fuel,
     ElementHandles_shouldHaveCount Demo.world (S fuel) Demo.no_items 0 s =
     Some (Resolved tt, asked)).
Proof.
  apply (nothing_matches Demo.world Demo.no_items
           (Demo.state_at 0 {| matchingTimeout := Some 500 |})
           {| matchingTimeout := Some 500 |} 500);
    [reflexivity | reflexivity | lia | reflexivity | reflexivity].
Defined.

(** The natives of the five items, by [map]. *)
Lemma map_keeps_order_and_length_witness :
  ElementHandles_map Demo.world Demo.the_items (fun el => ret (native el))
    (Demo.state_at 0 {| matchingTimeout := Some 500 |}) =
  (Resolved [10; 11; 12; 13; 14]%nat,
   after_call Demo.world (CallQueryAll (PageRoot 0) "li")
     (Demo.state_at 0 {| matchingTimeout := Some 500 |})).
Proof.
  apply (map_keeps_order_and_length Demo.world Demo.the_items
           (Demo.state_at 0 {| matchingTimeout := Some 500 |})).
  reflexivity.
Defined.

(** [forEach] over the five items. *)
Lemma forEach_visits_in_order_witness :
  ElementHandles_forEach Demo.world Demo.the_items (fun _ _ => ret tt)
    (Demo.state_at 0 {| matchingTimeout := Some 500 |}) =
  bind (Promise_all
          (imap (fun (i : nat) (it : nat) => @ret unit tt) [10; 11; 12; 13; 14]%nat))
       (fun _ => ret tt)
       (after_call Demo.world (CallQueryAll (PageRoot 0) "li")
          (Demo.state_at 0 {| matchingTimeout := Some 500 |})).
Proof.
  apply (forEach_visits_in_order Demo.world Demo.the_items (fun _ _ => ret tt)
           (Demo.state_at 0 {| matchingTimeout := Some 500 |})).
  reflexivity.
Defined.

(** [launch()] and [newPage()] from a state with no options object. *)
Lemma launched_options_reach_every_wrapper_witness :
  exists b p s2,
    (b <- launch Demo.world None ;; p <- Browser_newPage Demo.world b ;; ret (b, p))
      {| now := 0; calls := []; pages := 0; store := [] |} = (Resolved (b, p), s2) /\
    store s2 !! page_options p = Some {| matchingTimeout := Some 10000 |} /\
    forall s3 sel,
      store s3 = store s2 ->
      resolved_with
        (fun el => store s3 !! element_options el = Some {| matchingTimeout := Some 10000 |})
        (Page_dollar Demo.world p sel s3) /\
      resolved_with
        (Forall (fun el =>
           store s3 !! element_options el = Some {| matchingTimeout := Some 10000 |}))
        (Page_dollars Demo.world p sel s3) /\
      resolved_with
        (fun c => store s3 !! options c = Some {| matchingTimeout := Some 10000 |})
        (Page_dollars_lazy p sel s3) /\
      (forall el sel',
         store s3 !! element_options el = Some {| matchingTimeout := Some 10000 |} ->
         resolved_with
           (Forall (fun el' =>
              store s3 !! element_options el' = Some {| matchingTimeout := Some 10000 |}))
           (ElementHandle_dollars Demo.world el sel' s3)).
Proof.
  apply (launched_options_reach_every_wrapper Demo.world None
           {| now := 0; calls := []; pages := 0; store := [] |}
           {| matchingTimeout := Some 10000 |}).
  reflexivity.
Defined.

(** From 300 ms on, [shouldMatch(Text, "google")] resolves after one read. *)
Lemma satisfied_assertion_resolves_at_once_witness :
  run_assertion Demo.world 1 Demo.the_link (Text Demo.world)
    (ShouldMatch (ExpString "google"))
    (Demo.state_at 300 {| matchingTimeout := Some 500 |}) =
  Some (Resolved tt,
        after_call Demo.world (CallEvaluateText 1)
          (Demo.state_at 300 {| matchingTimeout := Some 500 |})).
Proof.
  apply (satisfied_assertion_resolves_at_once Demo.world 0 Demo.the_link (Exported IsText)
           (ShouldMatch (ExpString "google"))
           (ExpRegExp ("google" : @RegExp Demo.literal_engine))
           (Demo.state_at 300 {| matchingTimeout := Some 500 |})
           {| matchingTimeout := Some 500 |} 500 Demo.link);
    [reflexivity | reflexivity | reflexivity | lia | reflexivity | reflexivity].
Defined.
